(** * Cache-consistency runtime of the tanstack-query plugin

    A shallow embedding of
    [packages/plugins/tanstack-query/src/runtime/common.ts] and of the
    react mutation hook [useModelMutation] built on it, with the
    properties of the specification stated over it.

    Layout: JavaScript values and JSON, the wire helpers [marshal] /
    [unmarshal], the effect model (collaborator calls, console output,
    exceptions), [fetcher], [getQueryKey], the invalidation predicate, the
    optimistic-update scan, the lifecycle wrappers and [useModelMutation];
    then the theorems. *)

From Stdlib Require Import String Ascii List ZArith Bool DecimalString.
Import ListNotations.
Local Open Scope string_scope.
Local Open Scope list_scope.

Set Implicit Arguments.
#[local] Set Warnings "-register-all".

(* ===================================================================== *)
(** ** JavaScript values *)
(* ===================================================================== *)

(** The values that travel through the runtime.  Numbers are restricted to
    integers; a [Date] is identified by its ISO-8601 rendering (the result
    of [toISOString]); an object is its list of own enumerable properties
    in enumeration order. *)
Inductive value : Type :=
| VUndefined
| VNull
| VBool (b : bool)
| VNum (n : Z)
| VStr (s : string)
| VDate (iso : string)
| VArr (items : list value)
| VObj (fields : list (string * value)).

(** Exceptions and promise rejections.  [FetchError] is the [Error] that
    [fetcher] decorates with [info] and [status]. *)
Inductive exn : Type :=
| TypeError (msg : string)
| SyntaxError (raw : string)
| Error (message : string)
| FetchError (message : string) (info : value) (status : Z)
| Rejection (reason : value).

(** Result of a computation that may throw. *)
Inductive outcome (A : Type) : Type :=
| Ok (a : A)
| Thrown (e : exn).
Arguments Ok {A} a.
Arguments Thrown {A} e.

Definition obind {A B} (o : outcome A) (f : A -> outcome B) : outcome B :=
  match o with
  | Ok a => f a
  | Thrown e => Thrown e
  end.

(** JavaScript truthiness ([if (v)], [!v], [a && b]). *)
Definition truthy (v : value) : bool :=
  match v with
  | VUndefined | VNull => false
  | VBool b => b
  | VNum n => negb (Z.eqb n 0)
  | VStr s => negb (String.eqb s "")
  | VDate _ | VArr _ | VObj _ => true
  end.

(** [v === undefined]. *)
Definition is_undefined (v : value) : bool :=
  match v with
  | VUndefined => true
  | _ => false
  end.

(** [v === "s"]. *)
Definition strict_eq_str (v : value) (s : string) : bool :=
  match v with
  | VStr t => String.eqb t s
  | _ => false
  end.

(** Property lookup in a property list. *)
Fixpoint obj_get (k : string) (fields : list (string * value)) : option value :=
  match fields with
  | [] => None
  | (k', v) :: rest => if String.eqb k k' then Some v else obj_get k rest
  end.

(** Property definition [o[k] = v]: an existing property keeps its place,
    a new one is appended. *)
Fixpoint obj_set (k : string) (v : value) (fields : list (string * value))
  : list (string * value) :=
  match fields with
  | [] => [(k, v)]
  | (k', v') :: rest =>
      if String.eqb k k' then (k', v) :: rest else (k', v') :: obj_set k v rest
  end.

(** Member access [v.k].  It throws on [undefined] and [null]; on an object
    it reads the property; the other values have none of the member names
    this runtime reads ([data], [meta], [serialization], [error], [prisma],
    [code], [reason], [optimisticUpdate]). *)
Definition get_prop (v : value) (k : string) : outcome value :=
  match v with
  | VUndefined | VNull => Thrown (TypeError "Cannot read properties of undefined or null")
  | VObj fields =>
      match obj_get k fields with
      | Some x => Ok x
      | None => Ok VUndefined
      end
  | _ => Ok VUndefined
  end.

(** Optional chaining [v?.k]. *)
Definition get_prop_opt (v : value) (k : string) : outcome value :=
  match v with
  | VUndefined | VNull => Ok VUndefined
  | _ => get_prop v k
  end.

(** Decimal rendering of an array index. *)
Definition index_key (i : nat) : string :=
  NilEmpty.string_of_uint (Nat.to_uint i).

Fixpoint indexed_from {A} (i : nat) (l : list A) : list (string * A) :=
  match l with
  | [] => []
  | x :: rest => (index_key i, x) :: indexed_from (S i) rest
  end.

Fixpoint chars (s : string) : list value :=
  match s with
  | EmptyString => []
  | String c rest => VStr (String c EmptyString) :: chars rest
  end.

(** Own enumerable properties, as copied by object spread [{...v}]. *)
Definition own_props (v : value) : list (string * value) :=
  match v with
  | VObj fields => fields
  | VArr items => indexed_from 0 items
  | VStr s => indexed_from 0 (chars s)
  | _ => []
  end.

(** Array access [a[i]] as used by array destructuring. *)
Definition element (i : nat) (a : list value) : value :=
  nth i a VUndefined.

(* ===================================================================== *)
(** ** JSON *)
(* ===================================================================== *)

(** A JSON document. *)
Inductive json : Type :=
| JNull
| JBool (b : bool)
| JNum (n : Z)
| JStr (s : string)
| JArr (items : list json)
| JObj (members : list (string * json)).

(** A piece of text handed to [JSON.parse]: either the rendering of a JSON
    document (identified with the document) or something that does not
    parse. *)
Inductive text : Type :=
| Doc (j : json)
| Malformed (raw : string).

(** The JSON rendering of a value in array or member position:
    [undefined] becomes [null] in an array, a member holding [undefined]
    is dropped, a date renders through [toJSON] as its ISO string. *)
Fixpoint to_json (v : value) : json :=
  match v with
  | VUndefined => JNull
  | VNull => JNull
  | VBool b => JBool b
  | VNum n => JNum n
  | VStr s => JStr s
  | VDate iso => JStr iso
  | VArr items => JArr (map to_json items)
  | VObj fields =>
      JObj ((fix members (fs : list (string * value)) : list (string * json) :=
               match fs with
               | [] => []
               | (k, x) :: rest =>
                   match x with
                   | VUndefined => members rest
                   | _ => (k, to_json x) :: members rest
                   end
               end) fields)
  end.

(** [JSON.stringify(v)]: no text at all for [undefined]. *)
Definition JSON_stringify (v : value) : option text :=
  match v with
  | VUndefined => None
  | _ => Some (Doc (to_json v))
  end.

(** Members of a parsed object: a repeated name keeps its first place and
    its last value. *)
Definition define_all (ms : list (string * value)) : list (string * value) :=
  fold_left (fun acc kv => obj_set (fst kv) (snd kv) acc) ms [].

Fixpoint of_json (j : json) : value :=
  match j with
  | JNull => VNull
  | JBool b => VBool b
  | JNum n => VNum n
  | JStr s => VStr s
  | JArr items => VArr (map of_json items)
  | JObj members =>
      VObj (define_all (map (fun kx => (fst kx, of_json (snd kx))) members))
  end.

(** [JSON.parse(t)]. *)
Definition JSON_parse (t : text) : outcome value :=
  match t with
  | Doc j => Ok (of_json j)
  | Malformed raw => Thrown (SyntaxError raw)
  end.

(* ===================================================================== *)
(** ** marshal / unmarshal *)
(* ===================================================================== *)

Section Wire.

(** [serialize] and [deserialize] of [@zenstackhq/runtime/browser] are
    not part of the sources at hand; the wire helpers take them as
    parameters.  [serialize v] returns the pair [{ data, meta }]. *)
Variable serialize : value -> value * value.
Variable deserialize : value -> value -> outcome value.

(** [marshal(value)] *)
Definition marshal (v : value) : option text :=
  let '(data, meta) := serialize v in
  if truthy meta then
    JSON_stringify
      (VObj (obj_set "meta" (VObj [("serialization", meta)]) (own_props data)))
  else
    JSON_stringify data.

(** [unmarshal(value)] on a parsed document. *)
Definition unmarshal_parsed (parsed : value) : outcome value :=
  obind (get_prop parsed "data") (fun data =>
  obind (if truthy data then
           obind (get_prop parsed "meta") (fun meta =>
             get_prop_opt meta "serialization")
         else Ok data) (fun cond =>
  if truthy cond then
    obind (get_prop parsed "data") (fun data' =>
    obind (get_prop parsed "meta") (fun meta =>
    obind (get_prop meta "serialization") (fun ser =>
    obind (deserialize data' ser) (fun deserializedData =>
    Ok (VObj (obj_set "data" deserializedData (own_props parsed)))))))
  else
    Ok parsed)).

(** [unmarshal(value)] *)
Definition unmarshal (t : text) : outcome value :=
  obind (JSON_parse t) unmarshal_parsed.

(** [unmarshal(marshal(v))] *)
Definition unmarshal_marshal (v : value) : outcome value :=
  match marshal v with
  | Some t => unmarshal t
  | None => Thrown (SyntaxError "undefined")
  end.

End Wire.

(* ===================================================================== *)
(** ** Effects: collaborator calls, console output, exceptions *)
(* ===================================================================== *)

(** [RequestInit] as built by the mutation hook, and the part of a
    [Response] that [fetcher] reads. *)
Record RequestInit : Type := mkRequestInit {
  req_method : string;
  req_headers : list (string * string);
  req_body : option (option text)
}.

Record Response : Type := mkResponse {
  status : Z;
  res_text : text
}.

(** [res.ok]: the status is in the range 200-299. *)
Definition ok (res : Response) : bool :=
  (200 <=? status res)%Z && (status res <=? 299)%Z.

(** Lines written to the console. *)
Inductive console_msg : Type :=
| ErrorUnableToDeserialize (textResult : text)
| LogInvalidating (queryKey : option text) (model operation : string)
| WarnSkippingError (queryKey : option text) (error : value)
| LogSkippingOptOut (queryKey : option text)
| LogOptimisticallyUpdating (queryKey : option text) (model operation : string).

(** [InvalidationPredicate]: the decision for a query key, together with
    what evaluating it writes to the console. *)
Definition InvalidationPredicate : Type :=
  list value -> list console_msg * bool.

(** The three lifecycle phases of a mutation that the runtime wraps. *)
Inductive phase : Type :=
| OnMutate
| OnSuccess
| OnSettled.

(** Calls into the collaborators: the network, the merge function
    [applyMutation] of [@zenstackhq/runtime/cross], the query client, and
    what the caller supplies: lifecycle callbacks and a [fetch] function. *)
Inductive call : Type :=
| CFetch (url : string) (options : option RequestInit)
| CApplyMutation (queryModel queryOp data : value)
    (mutationModel mutationOp : string) (mutationArgs : value) (logging : bool)
| CInvalidateQueries (predicate : InvalidationPredicate)
| CSetQueryData (queryKey : list value) (data : value)
| CCancelQueries (queryKey : list value)
| CCallerHook (ph : phase) (args : list value)
| CCallerFetch (url : string) (options : option RequestInit).

(** What a call answers when it does not reject. *)
Definition resp (c : call) : Type :=
  match c with
  | CFetch _ _ => Response
  | CCallerFetch _ _ => Response
  | _ => value
  end.

(** A computation: it returns, throws, writes a console line or awaits a
    collaborator. *)
Inductive prog (A : Type) : Type :=
| Ret (a : A)
| Throw (e : exn)
| Console (m : console_msg) (k : prog A)
| Vis (c : call) (k : resp c -> prog A).
Arguments Ret {A} a.
Arguments Throw {A} e.
Arguments Console {A} m k.
Arguments Vis {A} c k.

Fixpoint bind {A B} (p : prog A) (f : A -> prog B) : prog B :=
  match p with
  | Ret a => f a
  | Throw e => Throw e
  | Console m k => Console m (bind k f)
  | Vis c k => Vis c (fun r => bind (k r) f)
  end.

Declare Scope prog_scope.
Delimit Scope prog_scope with prog.
Notation "x <- p ;; q" := (bind p (fun x => q))
  (at level 61, p at next level, right associativity) : prog_scope.
Notation "p ;;; q" := (bind p (fun _ => q))
  (at level 61, right associativity) : prog_scope.
Local Open Scope prog_scope.

Definition lift {A} (o : outcome A) : prog A :=
  match o with
  | Ok a => Ret a
  | Thrown e => Throw e
  end.

Definition trigger (c : call) : prog (resp c) := Vis c (fun r => Ret r).

(** What an observer sees of a run. *)
Inductive event : Type :=
| ECall (c : call)
| EConsole (m : console_msg).

Section Run.

(** The environment: a state [W] and the answer of every collaborator,
    which may depend on and change that state, and may be a rejection. *)
Variable W : Type.
Variable handler : forall c : call, W -> W * outcome (resp c).

Fixpoint run {A} (p : prog A) (w : W) : W * list event * outcome A :=
  match p with
  | Ret a => (w, [], Ok a)
  | Throw e => (w, [], Thrown e)
  | Console m k =>
      let '(w', t, o) := run k w in (w', EConsole m :: t, o)
  | Vis c k =>
      match handler c w with
      | (w1, Ok r) =>
          let '(w2, t, o) := run (k r) w1 in (w2, ECall c :: t, o)
      | (w1, Thrown e) => (w1, [ECall c], Thrown e)
      end
  end.

End Run.

(** The collaborator calls of a trace, console lines left out. *)
Fixpoint calls (t : list event) : list call :=
  match t with
  | [] => []
  | ECall c :: rest => c :: calls rest
  | EConsole _ :: rest => calls rest
  end.

(** The predicates handed to [invalidateQueries] in a trace, in order. *)
Fixpoint invalidations (t : list event) : list InvalidationPredicate :=
  match t with
  | [] => []
  | ECall (CInvalidateQueries p) :: rest => p :: invalidations rest
  | _ :: rest => invalidations rest
  end.

(* ===================================================================== *)
(** ** fetcher *)
(* ===================================================================== *)

Definition FetchFn : Type := string -> option RequestInit -> prog Response.

(** [crossFetch.fetch] *)
Definition crossFetch_fetch : FetchFn :=
  fun url options => trigger (CFetch url options).

(** [fetch ?? crossFetch.fetch] *)
Definition effective_fetch (fetch : option FetchFn) : FetchFn :=
  match fetch with
  | Some f => f
  | None => crossFetch_fetch
  end.

Section Fetcher.

Variable deserialize : value -> value -> outcome value.

(** The test of the non-ok branch:
    [checkReadBack !== false && errData.error?.prisma &&
     errData.error?.code === 'P2004' &&
     errData.error?.reason === 'RESULT_NOT_READABLE'] *)
Definition read_back_denied (checkReadBack : option bool) (errData : value)
  : outcome bool :=
  match checkReadBack with
  | Some false => Ok false
  | _ =>
      obind (get_prop errData "error") (fun e =>
      obind (get_prop_opt e "prisma") (fun prisma =>
      if truthy prisma then
        obind (get_prop_opt e "code") (fun code =>
        if strict_eq_str code "P2004" then
          obind (get_prop_opt e "reason") (fun reason =>
          Ok (strict_eq_str reason "RESULT_NOT_READABLE"))
        else Ok false)
      else Ok false))
  end.

(** [fetcher(url, options, fetch, checkReadBack)] *)
Definition fetcher (url : string) (options : option RequestInit)
    (fetch : option FetchFn) (checkReadBack : option bool) : prog value :=
  let _fetch := effective_fetch fetch in
  res <- _fetch url options ;;
  if negb (ok res) then
    errData <- lift (unmarshal deserialize (res_text res)) ;;
    denied <- lift (read_back_denied checkReadBack errData) ;;
    if denied : bool then
      Ret VUndefined
    else
      info <- lift (get_prop errData "error") ;;
      Throw (FetchError "An error occurred while fetching the data." info
               (status res))
  else
    let textResult := res_text res in
    match obind (unmarshal deserialize textResult)
                (fun v => get_prop v "data") with
    | Ok data => Ret data
    | Thrown err =>
        Console (ErrorUnableToDeserialize textResult) (Throw err)
    end.

End Fetcher.

(* ===================================================================== *)
(** ** Query keys *)
(* ===================================================================== *)

Definition QUERY_KEY_PREFIX : string := "zenstack".

(** [s.split(sep)] for a one-character separator: never empty. *)
Fixpoint split (sep : ascii) (s : string) : list string :=
  match s with
  | EmptyString => [EmptyString]
  | String c rest =>
      if Ascii.eqb c sep then EmptyString :: split sep rest
      else
        match split sep rest with
        | [] => [String c EmptyString]
        | seg :: segs => String c seg :: segs
        end
  end.

(** [a.pop()]: the last element, [undefined] on an empty array. *)
Fixpoint pop (a : list string) : option string :=
  match a with
  | [] => None
  | [x] => Some x
  | _ :: rest => pop rest
  end.

(** [s.includes(c)] and [s.endsWith(c)] for a character [c]. *)
Fixpoint contains (c : ascii) (s : string) : bool :=
  match s with
  | EmptyString => false
  | String c' rest => Ascii.eqb c' c || contains c rest
  end.

Fixpoint ends_with (c : ascii) (s : string) : bool :=
  match s with
  | EmptyString => false
  | String c' EmptyString => Ascii.eqb c' c
  | String _ rest => ends_with c rest
  end.

Definition opt_str (o : option string) : value :=
  match o with
  | Some s => VStr s
  | None => VUndefined
  end.

Definition or_default (d : bool) (o : option bool) : bool :=
  match o with
  | Some b => b
  | None => d
  end.

(** [getQueryKey(model, urlOrOperation, args, infinite = false,
    optimisticUpdate = false)] *)
Definition getQueryKey (model urlOrOperation : string) (args : value)
    (infinite optimisticUpdate : option bool) : outcome (list value) :=
  if negb (truthy (VStr urlOrOperation)) then
    Thrown (Error "Invalid urlOrOperation")
  else
    let operation := pop (split "/" urlOrOperation) in
    Ok [ VStr QUERY_KEY_PREFIX; VStr model; opt_str operation; args;
         VObj [ ("infinite", VBool (or_default false infinite));
                ("optimisticUpdate", VBool (or_default false optimisticUpdate)) ] ].

(* ===================================================================== *)
(** ** Invalidation, optimistic update and the lifecycle wrappers *)
(* ===================================================================== *)

(** A cache entry as the scan reads it: [queryKey], [state.data] and
    [state.error]. *)
Record CacheItem : Type := mkCacheItem {
  queryKey : list value;
  state_data : value;
  state_error : value
}.

Definition QueryCache : Type := list CacheItem.
Definition SetCacheFunc : Type := list value -> value -> prog unit.
Definition InvalidateFunc : Type := InvalidationPredicate -> prog unit.

(** A lifecycle callback [(...args) => any]. *)
Definition hook : Type := list value -> prog value.

(** The options object of a mutation. *)
Record MutationOptions : Type := mkMutationOptions {
  mutationFn : option (value -> prog value);
  onMutate : option hook;
  onSuccess : option hook;
  onSettled : option hook
}.

Definition no_options : MutationOptions :=
  mkMutationOptions None None None None.

(** [f?.(...args)] *)
Definition call_opt (f : option hook) (args : list value) : prog value :=
  match f with
  | Some h => h args
  | None => Ret VUndefined
  end.

(** [strings.includes(v)] *)
Definition includes (l : list string) (v : value) : bool :=
  existsb (strict_eq_str v) l.

Inductive http_method : Type :=
| POST
| PUT
| DELETE.

Definition method_name (m : http_method) : string :=
  match m with
  | POST => "POST"
  | PUT => "PUT"
  | DELETE => "DELETE"
  end.

Section Runtime.

(** The schema graph and its two resolvers, [getMutatedModels] and
    [getReadModels] of [@zenstackhq/runtime/cross], are consumed, not
    defined, by this runtime: total functions of their arguments. *)
Variable ModelMeta : Type.
Variable getMutatedModels : string -> string -> value -> ModelMeta -> list string.
Variable getReadModels : value -> ModelMeta -> value -> list string.

Variable serialize : value -> value * value.
Variable deserialize : value -> value -> outcome value.
Variable encodeURIComponent : option text -> string.

(** [findNestedRead(visitingModel, targetModels, modelMeta, args)] *)
Definition findNestedRead (visitingModel : value) (targetModels : list string)
    (modelMeta : ModelMeta) (args : value) : bool :=
  let modelsRead := getReadModels visitingModel modelMeta args in
  existsb (fun m => includes modelsRead (VStr m)) targetModels.

(** [getInvalidationPredicate(model, operation, mutationArgs, modelMeta,
    logging)] *)
Definition getInvalidationPredicate (model operation : string)
    (mutationArgs : value) (modelMeta : ModelMeta) (logging : bool)
  : InvalidationPredicate :=
  let mutatedModels := getMutatedModels model operation mutationArgs modelMeta in
  fun queryKey =>
    let queryModel := element 1 queryKey in
    let args := element 3 queryKey in
    let line := LogInvalidating (JSON_stringify (VArr queryKey)) model operation in
    if includes mutatedModels queryModel then
      (if logging then [line] else [], true)
    else if truthy args then
      if findNestedRead queryModel mutatedModels modelMeta args then
        (if logging then [line] else [], true)
      else ([], false)
    else ([], false).

(** [setupInvalidation(model, operation, modelMeta, options, invalidate,
    logging = false)]: the options object after the call. *)
Definition setupInvalidation (model operation : string) (modelMeta : ModelMeta)
    (options : MutationOptions) (invalidate : InvalidateFunc)
    (logging : option bool) : MutationOptions :=
  let logging := or_default false logging in
  let origOnSuccess := onSuccess options in
  mkMutationOptions (mutationFn options) (onMutate options)
    (Some (fun args =>
       let variables := element 1 args in
       let predicate :=
         getInvalidationPredicate model operation variables modelMeta logging in
       invalidate predicate ;;;
       call_opt origOnSuccess args))
    (onSettled options).

(** [optimisticUpdate(mutationModel, mutationOp, mutationArgs, modelMeta,
    queryCache, setCache, logging = false)] *)
Fixpoint optimisticUpdate (mutationModel mutationOp : string)
    (mutationArgs : value) (modelMeta : ModelMeta) (queryCache : QueryCache)
    (setCache : SetCacheFunc) (logging : bool) : prog unit :=
  match queryCache with
  | [] => Ret tt
  | cacheItem :: rest =>
      let continue :=
        optimisticUpdate mutationModel mutationOp mutationArgs modelMeta
          rest setCache logging in
      let key := JSON_stringify (VArr (queryKey cacheItem)) in
      let data := state_data cacheItem in
      let error := state_error cacheItem in
      if truthy error then
        if logging then Console (WarnSkippingError key error) continue
        else continue
      else
        let queryModel := element 1 (queryKey cacheItem) in
        let queryOp := element 2 (queryKey cacheItem) in
        flag <- lift (get_prop (element 4 (queryKey cacheItem)) "optimisticUpdate") ;;
        if negb (truthy flag) then
          if logging then Console (LogSkippingOptOut key) continue
          else continue
        else
          mutatedData <- trigger (CApplyMutation queryModel queryOp data
                                    mutationModel mutationOp mutationArgs logging) ;;
          if negb (is_undefined mutatedData) then
            (if logging
             then Console (LogOptimisticallyUpdating key mutationModel mutationOp)
                    (setCache (queryKey cacheItem) mutatedData)
             else setCache (queryKey cacheItem) mutatedData) ;;;
            continue
          else continue
  end.

(** [setupOptimisticUpdate(model, operation, modelMeta, options,
    queryCache, setCache, invalidate, logging = false)]: the options
    object after the call. *)
Definition setupOptimisticUpdate (model operation : string)
    (modelMeta : ModelMeta) (options : MutationOptions)
    (queryCache : QueryCache) (setCache : SetCacheFunc)
    (invalidate : option InvalidateFunc) (logging : option bool)
  : MutationOptions :=
  let logging := or_default false logging in
  let origOnMutate := onMutate options in
  let origOnSettled := onSettled options in
  mkMutationOptions (mutationFn options)
    (Some (fun args =>
       let variables := element 0 args in
       optimisticUpdate model operation variables modelMeta queryCache
         setCache logging ;;;
       call_opt origOnMutate args))
    (onSuccess options)
    (Some (fun args =>
       match invalidate with
       | Some invalidate' =>
           let variables := element 2 args in
           let predicate :=
             getInvalidationPredicate model operation variables modelMeta
               logging in
           invalidate' predicate ;;;
           call_opt origOnSettled args
       | None => call_opt origOnSettled args
       end)).

(** [makeUrl(url, args)] *)
Definition makeUrl (url : string) (args : value) : string :=
  if negb (truthy args) then url
  else
    let '(data, meta) := serialize args in
    let result :=
      (url ++ "?q=" ++ encodeURIComponent (JSON_stringify data))%string in
    if truthy meta then
      (result ++ "&meta="
         ++ encodeURIComponent
              (JSON_stringify (VObj [("serialization", meta)])))%string
    else result.

(** The two query-client lambdas that [useModelMutation] passes down. *)
Definition invalidateQueries : InvalidateFunc :=
  fun predicate => trigger (CInvalidateQueries predicate) ;;; Ret tt.

Definition setQueryData_and_cancel : SetCacheFunc :=
  fun queryKey data =>
    trigger (CSetQueryData queryKey data) ;;;
    trigger (CCancelQueries queryKey) ;;;
    Ret tt.

(** [useModelMutation(model, method, url, modelMeta, options, fetch,
    invalidateQueries = true, checkReadBack, optimisticUpdate = false)]:
    the options object handed to [useMutation].  [logging] is the value
    read from the request context and [cached] the result of
    [queryClient.getQueryCache().getAll()]. *)
Definition useModelMutation (logging : option bool) (cached : QueryCache)
    (model : string) (method : http_method) (url : string)
    (modelMeta : ModelMeta) (options : option MutationOptions)
    (fetch : option FetchFn) (invalidateQueries_ : option bool)
    (checkReadBack : option bool) (optimisticUpdate_ : option bool)
  : MutationOptions :=
  let invalidateQueries_ := or_default true invalidateQueries_ in
  let optimisticUpdate_ := or_default false optimisticUpdate_ in
  let mutationFn_ := fun data : value =>
    let reqUrl :=
      match method with
      | DELETE => makeUrl url data
      | _ => url
      end in
    let fetchInit :=
      match method with
      | DELETE => mkRequestInit (method_name method) [] None
      | _ => mkRequestInit (method_name method)
               [("content-type", "application/json")]
               (Some (marshal serialize data))
      end in
    fetcher deserialize reqUrl (Some fetchInit) fetch checkReadBack in
  let options := match options with Some o => o | None => no_options end in
  let finalOptions :=
    mkMutationOptions (Some mutationFn_) (onMutate options)
      (onSuccess options) (onSettled options) in
  match pop (split "/" url) with
  | Some operation =>
      if truthy (VStr operation) then
        let finalOptions :=
          if invalidateQueries_ then
            setupInvalidation model operation modelMeta finalOptions
              invalidateQueries logging
          else finalOptions in
        if optimisticUpdate_ then
          setupOptimisticUpdate model operation modelMeta finalOptions
            cached setQueryData_and_cancel
            (if invalidateQueries_ then Some invalidateQueries else None)
            logging
        else finalOptions
      else finalOptions
  | None => finalOptions
  end.


End Runtime.

(** The lifecycle of a mutation that succeeds, as the query library drives
    it: [onMutate(variables)], the mutation function, then
    [onSuccess(data, variables, context)] and
    [onSettled(data, null, variables, context)]. *)
Definition execute (options : MutationOptions) (variables : value) : prog value :=
  context <- call_opt (onMutate options) [variables] ;;
  data <- match mutationFn options with
          | Some f => f variables
          | None => Throw (Error "No mutationFn found")
          end ;;
  call_opt (onSuccess options) [data; variables; context] ;;;
  call_opt (onSettled options) [data; VNull; variables; context] ;;;
  Ret data.

(** A lifecycle callback of the caller and a [fetch] function of the
    caller, seen from the runtime as calls. *)
Definition caller_hook (ph : phase) : hook :=
  fun args => trigger (CCallerHook ph args).

Definition caller_fetch : FetchFn :=
  fun url options => trigger (CCallerFetch url options).

(** What a caller passes to [useModelMutation]: for each phase, a callback
    or none; a [fetch] function or none. *)
Definition supplied_hook (present : bool) (ph : phase) : option hook :=
  if present then Some (caller_hook ph) else None.

Definition supplied_options (mutate success settled : bool) : MutationOptions :=
  mkMutationOptions None (supplied_hook mutate OnMutate)
    (supplied_hook success OnSuccess) (supplied_hook settled OnSettled).

Definition supplied_fetch (present : bool) : option FetchFn :=
  if present then Some caller_fetch else None.

(* ===================================================================== *)
(** ** The predicate on keys that JSON cannot write *)
(* ===================================================================== *)

(** A query key is a [readonly unknown[]]: besides the values above, it may
    hold something that [JSON.stringify] rejects with a [TypeError], such
    as a [BigInt] among the query arguments.  Of such an element the
    predicate can only observe that it is no string and whether it is
    truthy. *)
Inductive key_part : Type :=
| Plain (v : value)
| NotJSON (truthiness : bool).

Module RawKey.

Definition part_truthy (p : key_part) : bool :=
  match p with
  | Plain v => truthy v
  | NotJSON b => b
  end.

Definition is_plain (p : key_part) : bool :=
  match p with
  | Plain _ => true
  | NotJSON _ => false
  end.

(** The key holds nothing that [JSON.stringify] rejects. *)
Definition writable (queryKey : list key_part) : bool :=
  forallb is_plain queryKey.

Fixpoint plain_values (queryKey : list key_part) : list value :=
  match queryKey with
  | [] => []
  | Plain v :: rest => v :: plain_values rest
  | NotJSON _ :: rest => plain_values rest
  end.

(** [JSON.stringify(queryKey)] *)
Definition stringify_key (queryKey : list key_part) : outcome (option text) :=
  if writable queryKey
  then Ok (JSON_stringify (VArr (plain_values queryKey)))
  else Thrown (TypeError "Do not know how to serialize a BigInt").

(** [queryKey[i]] *)
Definition element (i : nat) (queryKey : list key_part) : key_part :=
  nth i queryKey (Plain VUndefined).

(** [strings.includes(p)] *)
Definition includes (l : list string) (p : key_part) : bool :=
  match p with
  | Plain v => existsb (strict_eq_str v) l
  | NotJSON _ => false
  end.

Section Predicate.

Variable ModelMeta : Type.
Variable getMutatedModels : string -> string -> value -> ModelMeta -> list string.
Variable getReadModels : key_part -> ModelMeta -> key_part -> list string.

(** [findNestedRead(visitingModel, targetModels, modelMeta, args)] *)
Definition findNestedRead (visitingModel : key_part)
    (targetModels : list string) (modelMeta : ModelMeta) (args : key_part)
  : bool :=
  let modelsRead := getReadModels visitingModel modelMeta args in
  existsb (fun m => existsb (String.eqb m) modelsRead) targetModels.

(** [getInvalidationPredicate(model, operation, mutationArgs, modelMeta,
    logging)]: the console lines and the result of the predicate, which is
    a boolean or the exception of [JSON.stringify] in the logging
    statement. *)
Definition getInvalidationPredicate (model operation : string)
    (mutationArgs : value) (modelMeta : ModelMeta) (logging : bool)
  : list key_part -> list console_msg * outcome bool :=
  let mutatedModels := getMutatedModels model operation mutationArgs modelMeta in
  fun queryKey =>
    let queryModel := element 1 queryKey in
    let args := element 3 queryKey in
    let log_and_return_true : list console_msg * outcome bool :=
      if logging then
        match stringify_key queryKey with
        | Ok key => ([LogInvalidating key model operation], Ok true)
        | Thrown e => ([], Thrown e)
        end
      else ([], Ok true) in
    if includes mutatedModels queryModel then log_and_return_true
    else if part_truthy args then
      if findNestedRead queryModel mutatedModels modelMeta args
      then log_and_return_true
      else ([], Ok false)
    else ([], Ok false).

End Predicate.

End RawKey.

(* ===================================================================== *)
(** ** Query hooks *)
(* ===================================================================== *)

(** What a query hook hands to [useQuery] (or its suspense and infinite
    variants): the query key and the query function, which receives the
    page parameter of its context.  Of the options of the caller, spread
    last, the model keeps the one member that meets those two: a
    [queryFn] of the caller replaces the built one. *)
Record QueryOptions : Type := mkQueryOptions {
  query_key : list value;
  queryFn : value -> prog value
}.

Definition spread_queryFn (built : value -> prog value)
    (options : option (value -> prog value)) : value -> prog value :=
  match options with
  | Some custom => custom
  | None => built
  end.

(** [a ?? b] *)
Definition nullish_or (a b : value) : value :=
  match a with
  | VUndefined | VNull => b
  | _ => a
  end.

Section QueryHooks.

Variable serialize : value -> value * value.
Variable deserialize : value -> value -> outcome value.
Variable encodeURIComponent : option text -> string.

(** [useModelQuery(model, url, args, options, fetch,
    optimisticUpdate = false)] *)
Definition useModelQuery (model url : string) (args : value)
    (options : option (value -> prog value)) (fetch : option FetchFn)
    (optimisticUpdate_ : option bool) : outcome QueryOptions :=
  let optimisticUpdate_ := or_default false optimisticUpdate_ in
  let reqUrl := makeUrl serialize encodeURIComponent url args in
  obind (getQueryKey model url args (Some false) (Some optimisticUpdate_))
    (fun key =>
       Ok (mkQueryOptions key
             (spread_queryFn
                (fun _ => fetcher deserialize reqUrl None fetch (Some false))
                options))).

(** [useSuspenseModelQuery(model, url, args, options, fetch,
    optimisticUpdate = false)] *)
Definition useSuspenseModelQuery (model url : string) (args : value)
    (options : option (value -> prog value)) (fetch : option FetchFn)
    (optimisticUpdate_ : option bool) : outcome QueryOptions :=
  let optimisticUpdate_ := or_default false optimisticUpdate_ in
  let reqUrl := makeUrl serialize encodeURIComponent url args in
  obind (getQueryKey model url args (Some false) (Some optimisticUpdate_))
    (fun key =>
       Ok (mkQueryOptions key
             (spread_queryFn
                (fun _ => fetcher deserialize reqUrl None fetch (Some false))
                options))).

(** [useInfiniteModelQuery(model, url, args, options, fetch)] *)
Definition useInfiniteModelQuery (model url : string) (args : value)
    (options : option (value -> prog value)) (fetch : option FetchFn)
  : outcome QueryOptions :=
  obind (getQueryKey model url args (Some true) None)
    (fun key =>
       Ok (mkQueryOptions key
             (spread_queryFn
                (fun pageParam =>
                   fetcher deserialize
                     (makeUrl serialize encodeURIComponent url
                        (nullish_or pageParam args))
                     None fetch (Some false))
                options))).

(** [useSuspenseInfiniteModelQuery(model, url, args, options, fetch)] *)
Definition useSuspenseInfiniteModelQuery (model url : string) (args : value)
    (options : option (value -> prog value)) (fetch : option FetchFn)
  : outcome QueryOptions :=
  obind (getQueryKey model url args (Some true) None)
    (fun key =>
       Ok (mkQueryOptions key
             (spread_queryFn
                (fun pageParam =>
                   fetcher deserialize
                     (makeUrl serialize encodeURIComponent url
                        (nullish_or pageParam args))
                     None fetch (Some false))
                options))).

End QueryHooks.

(* ===================================================================== *)
(** ** Notions used by the properties *)
(* ===================================================================== *)

(** A run followed by the run of a continuation. *)
Definition and_then {W A B} (r : W * list event * outcome A)
    (k : A -> W -> W * list event * outcome B) : W * list event * outcome B :=
  match r with
  | (w1, t1, Ok a) => let '(w2, t2, o) := k a w1 in (w2, t1 ++ t2, o)
  | (w1, t1, Thrown e) => (w1, t1, Thrown e)
  end.

(** The trace of a run. *)
Definition trace_of {W A} (r : W * list event * outcome A) : list event :=
  snd (fst r).

(** What a run does to the collaborators: the final state of the
    environment, the calls made, in order, and the outcome.  Console lines
    are left out. *)
Definition effects {W A} (r : W * list event * outcome A)
  : W * list call * outcome A :=
  let '(w, t, o) := r in (w, calls t, o).

(** Two programs that are indistinguishable for the collaborators. *)
Definition same_effects {W} (handler : forall c : call, W -> W * outcome (resp c))
    {A} (p q : prog A) : Prop :=
  forall w, effects (run handler p w) = effects (run handler q w).

(** The policy-denied pattern of an error payload: [prisma] is [true],
    [code] is "P2004" and [reason] is "RESULT_NOT_READABLE". *)
Definition policy_denied (e : value) : bool :=
  match e with
  | VObj fields =>
      match obj_get "prisma" fields, obj_get "code" fields,
            obj_get "reason" fields with
      | Some (VBool true), Some (VStr code), Some (VStr reason) =>
          String.eqb code "P2004" && String.eqb reason "RESULT_NOT_READABLE"
      | _, _, _ => false
      end
  | _ => false
  end.

(** The callback of a phase, and the options with that callback removed. *)
Definition hook_of (ph : phase) (o : MutationOptions) : option hook :=
  match ph with
  | OnMutate => onMutate o
  | OnSuccess => onSuccess o
  | OnSettled => onSettled o
  end.


(** Calls that ask the query client to invalidate. *)
Definition is_invalidate (c : call) : bool :=
  match c with
  | CInvalidateQueries _ => true
  | _ => false
  end.

(** A program that never asks the query client to invalidate. *)
Inductive silent {A : Type} : prog A -> Prop :=
| silent_Ret (a : A) : silent (Ret a)
| silent_Throw (e : exn) : silent (Throw e)
| silent_Console (m : console_msg) (k : prog A) :
    silent k -> silent (Console m k)
| silent_Vis (c : call) (k : resp c -> prog A) :
    is_invalidate c = false -> (forall r, silent (k r)) -> silent (Vis c k).

(** The callbacks of the caller do not invalidate on their own. *)
Definition silent_hook (h : option hook) : Prop :=
  match h with
  | Some f => forall args, silent (f args)
  | None => True
  end.

Definition silent_options (o : option MutationOptions) : Prop :=
  match o with
  | Some o' =>
      silent_hook (onMutate o') /\ silent_hook (onSuccess o')
      /\ silent_hook (onSettled o')
  | None => True
  end.

(** Induction on values, through arrays and objects. *)
Section ValueInduction.

Variable P : value -> Prop.
Hypothesis P_undefined : P VUndefined.
Hypothesis P_null : P VNull.
Hypothesis P_bool : forall b, P (VBool b).
Hypothesis P_num : forall n, P (VNum n).
Hypothesis P_str : forall s, P (VStr s).
Hypothesis P_date : forall iso, P (VDate iso).
Hypothesis P_arr : forall items, Forall P items -> P (VArr items).
Hypothesis P_obj :
  forall fields, Forall (fun kv => P (snd kv)) fields -> P (VObj fields).

Fixpoint value_rect' (v : value) : P v :=
  match v with
  | VUndefined => P_undefined
  | VNull => P_null
  | VBool b => P_bool b
  | VNum n => P_num n
  | VStr s => P_str s
  | VDate iso => P_date iso
  | VArr items =>
      P_arr ((fix all (l : list value) : Forall P l :=
                match l with
                | [] => Forall_nil P
                | x :: rest => Forall_cons x (value_rect' x) (all rest)
                end) items)
  | VObj fields =>
      P_obj ((fix all (l : list (string * value))
                : Forall (fun kv => P (snd kv)) l :=
                match l with
                | [] => Forall_nil _
                | kv :: rest =>
                    Forall_cons kv (value_rect' (snd kv)) (all rest)
                end) fields)
  end.

End ValueInduction.

(** Distinct property names. *)
Fixpoint distinct (keys : list string) : bool :=
  match keys with
  | [] => true
  | k :: rest => negb (existsb (String.eqb k) rest) && distinct rest
  end.

(** A value that JSON represents as it is: no [undefined], no date, no
    repeated property name. *)
Fixpoint json_plain (v : value) : bool :=
  match v with
  | VUndefined | VDate _ => false
  | VNull | VBool _ | VNum _ | VStr _ => true
  | VArr items => forallb json_plain items
  | VObj fields =>
      distinct (map fst fields)
      && (fix all (fs : list (string * value)) : bool :=
            match fs with
            | [] => true
            | (_, x) :: rest => json_plain x && all rest
            end) fields
  end.

(** The test of [unmarshal]: [parsed.data && parsed.meta?.serialization]
    is truthy. *)
Definition carries_serialization (parsed : value) : bool :=
  match get_prop parsed "data" with
  | Ok data =>
      truthy data
      && match obind (get_prop parsed "meta")
                 (fun meta => get_prop_opt meta "serialization") with
         | Ok s => truthy s
         | Thrown _ => false
         end
  | Thrown _ => false
  end.

(** The member [v?.k], [undefined] when it cannot be read. *)
Definition member (v : value) (k : string) : value :=
  match get_prop_opt v k with
  | Ok x => x
  | Thrown _ => VUndefined
  end.

(** The error payload passes the test of [fetcher]: [prisma] is truthy,
    [code] is "P2004" and [reason] is "RESULT_NOT_READABLE". *)
Definition denied_payload (e : value) : bool :=
  truthy (member e "prisma")
  && strict_eq_str (member e "code") "P2004"
  && strict_eq_str (member e "reason") "RESULT_NOT_READABLE".

(** [checkReadBack !== false] *)
Definition read_back_checked (checkReadBack : option bool) : bool :=
  match checkReadBack with
  | Some false => false
  | _ => true
  end.

(** The console lines of a trace, calls left out. *)
Fixpoint console_lines (t : list event) : list console_msg :=
  match t with
  | [] => []
  | EConsole m :: rest => m :: console_lines rest
  | ECall _ :: rest => console_lines rest
  end.

(** The four query hooks, by name. *)
Inductive query_hook : Type :=
| UseModelQuery
| UseSuspenseModelQuery
| UseInfiniteModelQuery
| UseSuspenseInfiniteModelQuery.

Definition is_infinite (h : query_hook) : bool :=
  match h with
  | UseInfiniteModelQuery | UseSuspenseInfiniteModelQuery => true
  | _ => false
  end.

(** The call of a query hook; the infinite ones take no
    optimistic-update flag. *)
Definition use_query_hook (serialize : value -> value * value)
    (deserialize : value -> value -> outcome value)
    (encodeURIComponent : option text -> string) (h : query_hook)
    (model url : string) (args : value)
    (options : option (value -> prog value)) (fetch : option FetchFn)
    (optimisticUpdate_ : option bool) : outcome QueryOptions :=
  match h with
  | UseModelQuery =>
      useModelQuery serialize deserialize encodeURIComponent model url args
        options fetch optimisticUpdate_
  | UseSuspenseModelQuery =>
      useSuspenseModelQuery serialize deserialize encodeURIComponent model url
        args options fetch optimisticUpdate_
  | UseInfiniteModelQuery =>
      useInfiniteModelQuery serialize deserialize encodeURIComponent model url
        args options fetch
  | UseSuspenseInfiniteModelQuery =>
      useSuspenseInfiniteModelQuery serialize deserialize encodeURIComponent
        model url args options fetch
  end.

(** The call of a callback of the caller, if there is one. *)
Definition hook_calls (present : bool) (ph : phase) (args : list value)
  : list call :=
  if present then [CCallerHook ph args] else [].

(* ===================================================================== *)
(** ** Stand-ins for the collaborators *)
(* ===================================================================== *)

(** Concrete collaborators, used to run the runtime on explicit inputs. *)

(** Modelled from the spec: [serialize] of [@zenstackhq/runtime/browser],
    which is not among the sources at hand (it turns rich values into JSON
    data plus serialization metadata for what JSON cannot represent).
    Dates are the rich type modelled: the data carries the ISO string of
    each date, the metadata records where the dates were. *)
Fixpoint plain_data (v : value) : value :=
  match v with
  | VDate iso => VStr iso
  | VArr items => VArr (map plain_data items)
  | VObj fields =>
      VObj ((fix go (fs : list (string * value)) : list (string * value) :=
               match fs with
               | [] => []
               | (k, x) :: rest => (k, plain_data x) :: go rest
               end) fields)
  | _ => v
  end.

Definition some_fields (l : list (string * value)) : option value :=
  match l with
  | [] => None
  | _ => Some (VObj l)
  end.

Fixpoint annotations (v : value) : option value :=
  match v with
  | VDate _ => Some (VArr [VStr "Date"])
  | VArr items =>
      some_fields
        ((fix go (i : nat) (l : list value) : list (string * value) :=
            match l with
            | [] => []
            | x :: rest =>
                match annotations x with
                | Some a => (index_key i, a) :: go (S i) rest
                | None => go (S i) rest
                end
            end) 0 items)
  | VObj fields =>
      some_fields
        ((fix go (fs : list (string * value)) : list (string * value) :=
            match fs with
            | [] => []
            | (k, x) :: rest =>
                match annotations x with
                | Some a => (k, a) :: go rest
                | None => go rest
                end
            end) fields)
  | _ => None
  end.

Definition date_serialize (v : value) : value * value :=
  (plain_data v,
   match annotations v with
   | Some a => VObj [("values", a)]
   | None => VUndefined
   end).

(** Modelled from the spec: [deserialize] of [@zenstackhq/runtime/browser],
    the inverse of the above: it puts the dates back where the metadata
    says they were. *)
Fixpoint revive (d a : value) {struct d} : value :=
  match a with
  | VArr [VStr "Date"] =>
      match d with
      | VStr iso => VDate iso
      | _ => d
      end
  | VObj anns =>
      match d with
      | VArr items =>
          VArr ((fix go (i : nat) (l : list value) : list value :=
                   match l with
                   | [] => []
                   | x :: rest =>
                       match obj_get (index_key i) anns with
                       | Some a' => revive x a'
                       | None => x
                       end :: go (S i) rest
                   end) 0 items)
      | VObj fields =>
          VObj ((fix go (fs : list (string * value)) : list (string * value) :=
                   match fs with
                   | [] => []
                   | (k, x) :: rest =>
                       (k, match obj_get k anns with
                           | Some a' => revive x a'
                           | None => x
                           end) :: go rest
                   end) fields)
      | _ => d
      end
  | _ => d
  end.

Definition date_deserialize (data meta : value) : outcome value :=
  match meta with
  | VObj ms =>
      match obj_get "values" ms with
      | Some a => Ok (revive data a)
      | None => Ok data
      end
  | _ => Ok data
  end.

(** Modelled from the spec: the schema graph [ModelMeta], not among the
    sources at hand, reduced to what the resolvers read: for each model,
    its relation fields and their target models. *)
Definition Schema : Type := list (string * list (string * string)).

Fixpoint lookup {A} (k : string) (l : list (string * A)) : option A :=
  match l with
  | [] => None
  | (k', a) :: rest => if String.eqb k k' then Some a else lookup k rest
  end.

Definition relation_target (schema : Schema) (model field : string)
  : option string :=
  match lookup model schema with
  | Some relations => lookup field relations
  | None => None
  end.

(** Modelled from the spec: [getReadModels] of [@zenstackhq/runtime/cross]
    (section 4.2): the model itself and, for each relation field present
    in the [select] / [include] map of the arguments, the models read by
    that relation's own nested arguments. *)
Fixpoint read_models (schema : Schema) (model : string) (args : value)
    {struct args} : list string :=
  model ::
  match args with
  | VObj fs =>
      (fix sections (fs : list (string * value)) : list string :=
         match fs with
         | [] => []
         | (k, selection) :: rest =>
             (if String.eqb k "select" || String.eqb k "include" then
                match selection with
                | VObj sfs =>
                    (fix selected (sfs : list (string * value)) : list string :=
                       match sfs with
                       | [] => []
                       | (field, sub) :: more =>
                           match relation_target schema model field with
                           | Some target =>
                               if truthy sub
                               then read_models schema target sub
                               else []
                           | None => []
                           end ++ selected more
                       end) sfs
                | _ => []
                end
              else []) ++ sections rest
         end) fs
  | _ => []
  end.

Definition schema_getReadModels (visitingModel : value) (schema : Schema)
    (args : value) : list string :=
  match visitingModel with
  | VStr model => read_models schema model args
  | _ => []
  end.

(** Modelled from the spec: [getMutatedModels] of
    [@zenstackhq/runtime/cross] (section 4.1): the model itself and, for
    each relation field present in the written data, the target model and
    the models written by the nested operations under that field. *)
Fixpoint written_models (schema : Schema) (model : string) (data : value)
    {struct data} : list string :=
  model ::
  match data with
  | VObj fs =>
      (fix fields (fs : list (string * value)) : list string :=
         match fs with
         | [] => []
         | (field, payload) :: rest =>
             match relation_target schema model field with
             | Some target =>
                 target ::
                 match payload with
                 | VObj ops =>
                     (fix nested (ops : list (string * value)) : list string :=
                        match ops with
                        | [] => []
                        | (_, sub) :: more =>
                            written_models schema target sub ++ nested more
                        end) ops
                 | _ => []
                 end
             | None => []
             end ++ fields rest
         end) fs
  | _ => []
  end.

Definition schema_getMutatedModels (model operation : string)
    (mutationArgs : value) (schema : Schema) : list string :=
  match get_prop_opt mutationArgs "data" with
  | Ok data => written_models schema model data
  | Thrown _ => [model]
  end.

(** A blog schema: users have posts, posts have an author and tags. *)
Definition blog : Schema :=
  [ ("User", [("posts", "Post")]);
    ("Post", [("author", "User"); ("tags", "Tag")]);
    ("Tag", []) ].

(** An environment without state: the network answers [res], the merge
    function answers [merged], every other collaborator returns
    [undefined]. *)
Definition answering (res : Response) (merged : value)
  : forall c : call, unit -> unit * outcome (resp c) :=
  fun c w =>
    match c return unit * outcome (resp c) with
    | CFetch _ _ => (w, Ok res)
    | CApplyMutation _ _ _ _ _ _ _ => (w, Ok merged)
    | CInvalidateQueries _ => (w, Ok VUndefined)
    | CSetQueryData _ _ => (w, Ok VUndefined)
    | CCancelQueries _ => (w, Ok VUndefined)
    | CCallerHook _ _ => (w, Ok VUndefined)
    | CCallerFetch _ _ => (w, Ok res)
    end.

(** ** Sample inputs *)

(** The error payload of a denied read-back, and a response carrying it. *)
Definition denied_error : json :=
  JObj [ ("prisma", JBool true); ("code", JStr "P2004");
         ("reason", JStr "RESULT_NOT_READABLE") ].

Definition denied_response (st : Z) : Response :=
  mkResponse st (Doc (JObj [("error", denied_error)])).

Definition created_response : Response :=
  mkResponse 200 (Doc (JObj [("data", JObj [("id", JNum 1)])])).

Definition delete_init : RequestInit := mkRequestInit "DELETE" [] None.

Definition flags (infinite optimisticUpdate : bool) : value :=
  VObj [ ("infinite", VBool infinite);
         ("optimisticUpdate", VBool optimisticUpdate) ].

(** Cached queries: all posts, and all users with their posts. *)
Definition posts_key : list value :=
  [ VStr "zenstack"; VStr "Post"; VStr "findMany"; VUndefined; flags false true ].

Definition users_key : list value :=
  [ VStr "zenstack"; VStr "User"; VStr "findMany";
    VObj [("include", VObj [("posts", VBool true)])]; flags false true ].

Definition posts_entry : CacheItem :=
  mkCacheItem posts_key (VArr [VObj [("id", VNum 1)]]) VUndefined.

Definition failed_users_entry : CacheItem :=
  mkCacheItem users_key VUndefined (VStr "Network request failed").

Definition new_post : value :=
  VObj [("data", VObj [("title", VStr "Hello")])].

Definition caller_options : MutationOptions := supplied_options true true true.

Definition uri_stub (t : option text) : string := "q".

(** More sample inputs: a server error, a body that is not JSON, an
    envelope with a serialized date, a query of another library, and a
    post query that did not opt in. *)
Definition server_error_response : Response :=
  mkResponse 500 (Doc (JObj [("error", JObj [("message", JStr "boom")])])).

Definition html_response (st : Z) : Response :=
  mkResponse st (Malformed "<html>Bad Gateway</html>").

Definition dated_response : Response :=
  mkResponse 200
    (Doc (JObj [ ("data", JObj [("createdAt", JStr "2024-01-01T00:00:00.000Z")]);
                 ("meta",
                  JObj [("serialization",
                         JObj [("values",
                                JObj [("createdAt", JArr [JStr "Date"])])])]) ])).

Definition todos_entry : CacheItem :=
  mkCacheItem [VStr "todos"] (VArr []) VUndefined.

Definition plain_posts_key : list value :=
  [ VStr "zenstack"; VStr "Post"; VStr "findMany"; VUndefined; flags false false ].

Definition plain_posts_entry : CacheItem :=
  mkCacheItem plain_posts_key (VArr []) VUndefined.

Definition dated_post : value :=
  VObj [ ("meta", VStr "draft");
         ("createdAt", VDate "2024-01-01T00:00:00.000Z") ].

(** A resolver that reports the root model only. *)
Definition root_only (model operation : string) (mutationArgs : value)
    (schema : Schema) : list string :=
  [model].



(* ===================================================================== *)
(** * Properties *)
(* ===================================================================== *)

(** ** The invalidation predicate *)

Lemma includes_In (l : list string) (m : string) :
  includes l (VStr m) = true <-> In m l.
Proof.
  unfold includes. rewrite existsb_exists. split.
  - intros (x & Hin & Heq). simpl in Heq.
    apply String.eqb_eq in Heq. now subst.
  - intros Hin. exists m. split; [assumption|].
    simpl. apply String.eqb_refl.
Qed.

Section PredicateProperties.

Variable ModelMeta : Type.
Variable getMutatedModels : string -> string -> value -> ModelMeta -> list string.
Variable getReadModels : value -> ModelMeta -> value -> list string.

Local Abbreviation predicate :=
  (getInvalidationPredicate getMutatedModels getReadModels).


(** C5.  A query without arguments is invalidated exactly when its model
    is in the mutated-model set: the nested-read scan plays no part. *)
Theorem no_args_only_direct_hit
    (model operation : string) (mutationArgs : value) (modelMeta : ModelMeta)
    (logging : bool) (queryKey : list value) (queryModel : string) :
  element 1 queryKey = VStr queryModel ->
  element 3 queryKey = VUndefined ->
  snd (predicate model operation mutationArgs modelMeta logging queryKey) = true
  <-> In queryModel (getMutatedModels model operation mutationArgs modelMeta).
Proof.
  intros Hmodel Hargs. unfold predicate, getInvalidationPredicate.
  rewrite Hmodel, Hargs. rewrite <- includes_In.
  destruct (includes _ (VStr queryModel)); simpl.
  - tauto.
  - split; discriminate.
Qed.

End PredicateProperties.

(** *** Logging and the decision *)

Lemma raw_element_plain (i : nat) (queryKey : list value) :
  RawKey.element i (map Plain queryKey) = Plain (element i queryKey).
Proof.
  unfold RawKey.element, element. apply (map_nth Plain).
Qed.

Lemma raw_stringify_plain (queryKey : list value) :
  RawKey.stringify_key (map Plain queryKey)
  = Ok (JSON_stringify (VArr queryKey)).
Proof.
  unfold RawKey.stringify_key.
  assert (Hw : RawKey.writable (map Plain queryKey) = true).
  { induction queryKey as [|a q IH]; cbn; auto. }
  assert (Hv : RawKey.plain_values (map Plain queryKey) = queryKey).
  { induction queryKey as [|a q IH]; cbn; [reflexivity|now rewrite IH]. }
  now rewrite Hw, Hv.
Qed.

Section LoggingAndDecision.

Variable ModelMeta : Type.
Variable getMutatedModels : string -> string -> value -> ModelMeta -> list string.

(** On keys made of plain values, the predicate with a result that may be
    an exception is the predicate above: same console lines, same
    boolean, never an exception. *)
Lemma raw_predicate_on_plain_keys
    (getReadModels : value -> ModelMeta -> value -> list string)
    (rawReadModels : key_part -> ModelMeta -> key_part -> list string)
    (model operation : string) (mutationArgs : value) (modelMeta : ModelMeta)
    (logging : bool) (queryKey : list value) :
  (forall m a, rawReadModels (Plain m) modelMeta (Plain a)
               = getReadModels m modelMeta a) ->
  RawKey.getInvalidationPredicate getMutatedModels rawReadModels model
    operation mutationArgs modelMeta logging (map Plain queryKey)
  = (fst (getInvalidationPredicate getMutatedModels getReadModels model
            operation mutationArgs modelMeta logging queryKey),
     Ok (snd (getInvalidationPredicate getMutatedModels getReadModels model
                operation mutationArgs modelMeta logging queryKey))).
Proof.
  intros Hread.
  unfold RawKey.getInvalidationPredicate, getInvalidationPredicate.
  rewrite !raw_element_plain, raw_stringify_plain.
  unfold RawKey.findNestedRead, findNestedRead. rewrite Hread.
  cbn [RawKey.includes RawKey.part_truthy]. fold (includes
    (getMutatedModels model operation mutationArgs modelMeta)
    (element 1 queryKey)).
  destruct (includes _ (element 1 queryKey)).
  - destruct logging; reflexivity.
  - destruct (truthy (element 3 queryKey)); [|reflexivity].
    match goal with
    | |- (if ?a then _ else _) = (fst (if ?b then _ else _), _) =>
        change a with b; destruct b; destruct logging; reflexivity
    end.
Qed.

Variable getReadModels : key_part -> ModelMeta -> key_part -> list string.

Local Abbreviation raw_predicate :=
  (RawKey.getInvalidationPredicate getMutatedModels getReadModels).


End LoggingAndDecision.


(** ** Query keys *)

Section SplitFacts.

Variable sep : ascii.

Lemma split_not_nil (s : string) : split sep s <> [].
Proof.
  destruct s as [|c r]; simpl; [discriminate|].
  destruct (Ascii.eqb c sep); [discriminate|].
  destruct (split sep r); discriminate.
Qed.

Lemma pop_cons (x : string) (l : list string) :
  l <> [] -> pop (x :: l) = pop l.
Proof. destruct l; [congruence|reflexivity]. Qed.

Lemma split_single (s x : string) :
  split sep s = [x] -> contains sep s = false.
Proof.
  revert x. induction s as [|c r IH]; intros x Hs; [reflexivity|].
  simpl in *. destruct (Ascii.eqb c sep).
  - injection Hs as _ Hs. now destruct (split_not_nil r).
  - destruct (split sep r) as [|seg segs] eqn:E;
      [now destruct (split_not_nil r)|].
    injection Hs as _ ->. simpl. now apply (IH seg).
Qed.

Lemma contains_app (a b : string) :
  contains sep (a ++ b) = contains sep a || contains sep b.
Proof.
  induction a as [|c r IH]; simpl; [reflexivity|].
  rewrite IH. apply orb_assoc.
Qed.

Lemma ends_with_contains (s : string) :
  ends_with sep s = true -> contains sep s = true.
Proof.
  induction s as [|c r IH]; simpl; [discriminate|].
  destruct r.
  - intros ->. reflexivity.
  - intros H. rewrite (IH H). apply orb_true_r.
Qed.

(** The last segment is a suffix of the string, free of separators, and
    what precedes it is empty or ends with a separator. *)
Lemma pop_split_suffix (s : string) :
  exists pre op,
    pop (split sep s) = Some op
    /\ s = (pre ++ op)%string
    /\ contains sep op = false
    /\ (pre = "" \/ ends_with sep pre = true)
    /\ (pre = "" -> split sep s = [op]).
Proof.
  induction s as [|c r IH].
  - exists "", "". simpl. repeat split; auto.
  - destruct IH as (pre & op & Hpop & Hr & Hfree & Hpre & Hone).
    simpl. destruct (Ascii.eqb c sep) eqn:Hc.
    + exists (String c pre), op.
      rewrite pop_cons by apply split_not_nil.
      repeat split; auto.
      * simpl. now rewrite Hr.
      * right. destruct Hpre as [->|Hend]; simpl; [assumption|].
        destruct pre; [discriminate|assumption].
      * discriminate.
    + destruct Hpre as [->|Hend].
      * specialize (Hone eq_refl). rewrite Hone. simpl in Hr. subst r.
        exists "", (String c op). simpl. rewrite Hc, Hfree.
        repeat split; auto.
      * destruct (split sep r) as [|seg segs] eqn:Hs.
        { now destruct (split_not_nil r). }
        destruct segs as [|seg' segs'].
        { exfalso. apply split_single in Hs.
          rewrite Hr, contains_app, (ends_with_contains _ Hend) in Hs.
          discriminate. }
        exists (String c pre), op. repeat split; auto.
        -- simpl. now rewrite Hr.
        -- right. simpl. destruct pre; [discriminate|assumption].
        -- discriminate.
Qed.

Lemma ends_with_app_free (pre op : string) :
  contains sep op = false -> op <> "" ->
  ends_with sep (pre ++ op) = false.
Proof.
  intros Hfree Hne. induction pre as [|c p IH]; simpl.
  - clear Hne. induction op as [|c r IHr]; [reflexivity|].
    simpl in *. apply orb_false_elim in Hfree as [Hc Hfree].
    destruct r; [assumption|]. now apply IHr.
  - destruct (p ++ op)%string eqn:E; [|assumption].
    destruct p; simpl in E; [congruence|discriminate].
Qed.

End SplitFacts.

(** C4, as the code has it.  [getQueryKey] throws exactly on an empty
    [urlOrOperation].  Otherwise it returns the five components, with the
    model as given and, for the operation, the text after the last "/":
    a suffix of [urlOrOperation] without "/", preceded by nothing or by
    text ending in "/"; that operation is empty exactly when
    [urlOrOperation] ends with "/". *)
Theorem getQueryKey_components
    (model urlOrOperation : string) (args : value)
    (infinite optimisticUpdate : option bool) :
  match getQueryKey model urlOrOperation args infinite optimisticUpdate with
  | Thrown e => urlOrOperation = "" /\ e = Error "Invalid urlOrOperation"
  | Ok key =>
      urlOrOperation <> ""
      /\ exists pre operation,
           key = [ VStr QUERY_KEY_PREFIX; VStr model; VStr operation; args;
                   VObj [ ("infinite", VBool (or_default false infinite));
                          ("optimisticUpdate",
                           VBool (or_default false optimisticUpdate)) ] ]
           /\ urlOrOperation = (pre ++ operation)%string
           /\ contains "/" operation = false
           /\ (pre = "" \/ ends_with "/" pre = true)
           /\ (operation = "" <-> ends_with "/" urlOrOperation = true)
  end.
Proof.
  unfold getQueryKey. simpl.
  destruct (String.eqb_spec urlOrOperation "") as [->|Hne]; simpl.
  - split; reflexivity.
  - split; [assumption|].
    destruct (pop_split_suffix "/" urlOrOperation)
      as (pre & op & Hpop & Hu & Hfree & Hpre & _).
    exists pre, op. rewrite Hpop. simpl.
    repeat split; auto.
    + intros ->. rewrite Hu.
      assert (Heq : (pre ++ "")%string = pre)
        by (clear; induction pre; simpl; congruence).
      rewrite Heq. destruct Hpre as [->|Hend]; [|assumption].
      subst urlOrOperation. now destruct Hne.
    + intros Hend. destruct (String.eqb_spec op "") as [->|Hop]; [reflexivity|].
      rewrite Hu in Hend.
      rewrite (ends_with_app_free "/" pre Hfree Hop) in Hend. discriminate.
Qed.

(** C4 fails as stated: an empty model is accepted as it is, and a
    routing path that ends with "/" yields an empty operation without any
    failure. *)
Lemma getQueryKey_empty_components :
  getQueryKey "" "findMany" VUndefined None None
  = Ok [ VStr "zenstack"; VStr ""; VStr "findMany"; VUndefined;
         VObj [("infinite", VBool false); ("optimisticUpdate", VBool false)] ]
  /\ getQueryKey "Post" "/api/model/post/" VUndefined None None
     = Ok [ VStr "zenstack"; VStr "Post"; VStr ""; VUndefined;
            VObj [("infinite", VBool false); ("optimisticUpdate", VBool false)] ].
Proof. split; reflexivity. Qed.

(** ** Running programs *)

Section RunFacts.

Variable W : Type.
Variable handler : forall c : call, W -> W * outcome (resp c).

Lemma run_bind {A B} (p : prog A) (f : A -> prog B) (w : W) :
  run handler (bind p f) w
  = and_then (run handler p w) (fun a => run handler (f a)).
Proof.
  revert w. induction p as [a|e|m k IH|c k IH]; intros w; simpl.
  - destruct (run handler (f a) w) as [[w2 t2] o]. reflexivity.
  - reflexivity.
  - rewrite IH. destruct (run handler k w) as [[w1 t1] [a|e]]; simpl.
    + destruct (run handler (f a) w1) as [[w2 t2] o]. reflexivity.
    + reflexivity.
  - destruct (handler c w) as [w1 [r|e]]; [|reflexivity].
    rewrite IH. destruct (run handler (k r) w1) as [[w2 t2] [a|e]]; simpl.
    + destruct (run handler (f a) w2) as [[w3 t3] o]. reflexivity.
    + reflexivity.
Qed.

Lemma run_lift {A} (o : outcome A) (w : W) :
  run handler (lift o) w = (w, [], o).
Proof. destruct o; reflexivity. Qed.

End RunFacts.

(** ** fetcher *)

Lemma read_back_denied_spec (checkReadBack : option bool) (errData e : value) :
  get_prop errData "error" = Ok e ->
  policy_denied e = true ->
  read_back_denied checkReadBack errData
  = Ok (match checkReadBack with Some false => false | _ => true end).
Proof.
  intros He Hp. unfold read_back_denied. rewrite He. simpl.
  destruct e as [| | | | | | |fields]; try discriminate.
  unfold policy_denied in Hp. simpl.
  destruct (obj_get "prisma" fields) as [[| |[|]| | | | |]|]; try discriminate.
  destruct (obj_get "code" fields) as [[| | | |code| | |]|]; try discriminate.
  destruct (obj_get "reason" fields) as [[| | | |reason| | |]|]; try discriminate.
  apply andb_prop in Hp as [Hc Hr]. simpl. rewrite Hc, Hr.
  destruct checkReadBack as [[|]|]; reflexivity.
Qed.

(** A parsed body without a [data] member is returned as it is. *)
Lemma unmarshal_parsed_no_data
    (deserialize : value -> value -> outcome value)
    (fields : list (string * value)) :
  obj_get "data" fields = None ->
  unmarshal_parsed deserialize (VObj fields) = Ok (VObj fields).
Proof.
  intros Hdata. unfold unmarshal_parsed, get_prop. rewrite Hdata. reflexivity.
Qed.

Section FetcherProperties.

Variable W : Type.
Variable handler : forall c : call, W -> W * outcome (resp c).
Variable deserialize : value -> value -> outcome value.

(** C3.  On a non-2xx response whose error payload matches the
    policy-denied pattern, [fetcher] resolves to [undefined] unless
    [checkReadBack] is explicitly [false]; with [checkReadBack = false] it
    rejects with an error carrying that payload and the status code. *)
Theorem fetcher_policy_denied
    (url : string) (options : option RequestInit) (fetch : option FetchFn)
    (checkReadBack : option bool) (w w1 : W) (t : list event)
    (res : Response) (errData e : value) :
  run handler (effective_fetch fetch url options) w = (w1, t, Ok res) ->
  ok res = false ->
  unmarshal deserialize (res_text res) = Ok errData ->
  get_prop errData "error" = Ok e ->
  policy_denied e = true ->
  run handler (fetcher deserialize url options fetch checkReadBack) w
  = (w1, t,
     match checkReadBack with
     | Some false =>
         Thrown (FetchError "An error occurred while fetching the data." e
                   (status res))
     | _ => Ok VUndefined
     end).
Proof.
  intros Hfetch Hok Hun He Hp. unfold fetcher.
  rewrite run_bind, Hfetch. simpl. rewrite Hok. simpl.
  rewrite Hun. simpl.
  rewrite (read_back_denied_spec checkReadBack _ He Hp). simpl.
  destruct checkReadBack as [[|]|]; simpl; rewrite ?app_nil_r; try reflexivity.
  rewrite He. simpl. rewrite app_nil_r. reflexivity.
Qed.

(** C2.  On a response with status 200 whose body is the failure envelope
    [{ error: e }] with the policy-denied error, [fetcher] with read-back
    checking left on resolves to [undefined] and does not throw. *)
Theorem fetcher_ok_status_error_body
    (url : string) (options : option RequestInit) (fetch : option FetchFn)
    (checkReadBack : option bool) (w w1 : W) (t : list event)
    (res : Response) (e : value) :
  run handler (effective_fetch fetch url options) w = (w1, t, Ok res) ->
  status res = 200%Z ->
  JSON_parse (res_text res) = Ok (VObj [("error", e)]) ->
  policy_denied e = true ->
  checkReadBack <> Some false ->
  run handler (fetcher deserialize url options fetch checkReadBack) w
  = (w1, t, Ok VUndefined).
Proof.
  intros Hfetch Hst Hparse _ _. unfold fetcher.
  rewrite run_bind, Hfetch. simpl.
  unfold ok. rewrite Hst. simpl.
  unfold unmarshal. rewrite Hparse. cbn [obind].
  rewrite (@unmarshal_parsed_no_data deserialize [("error", e)] eq_refl).
  simpl. rewrite app_nil_r. reflexivity.
Qed.

End FetcherProperties.

(** ** The optimistic-update scan *)

Lemma calls_app (t1 t2 : list event) :
  calls (t1 ++ t2) = calls t1 ++ calls t2.
Proof.
  induction t1 as [|[c|m] t1 IH]; simpl; [reflexivity| |assumption].
  now rewrite IH.
Qed.

Section ScanProperties.

Variable W : Type.
Variable handler : forall c : call, W -> W * outcome (resp c).
Variable ModelMeta : Type.

Lemma same_effects_refl {A} (p : prog A) : same_effects handler p p.
Proof. intros w. reflexivity. Qed.


Lemma same_effects_console_both {A} (m : console_msg) (p q : prog A) :
  same_effects handler p q -> same_effects handler (Console m p) (Console m q).
Proof.
  intros H w. specialize (H w). simpl.
  destruct (run handler p w) as [[w1 t1] o1].
  destruct (run handler q w) as [[w2 t2] o2]. exact H.
Qed.

Lemma same_effects_bind {A B} (p : prog A) (f g : A -> prog B) :
  (forall a, same_effects handler (f a) (g a)) ->
  same_effects handler (bind p f) (bind p g).
Proof.
  intros H w. rewrite !run_bind.
  destruct (run handler p w) as [[w1 t1] [a|e]]; simpl; [|reflexivity].
  specialize (H a w1).
  destruct (run handler (f a) w1) as [[w2 t2] o2].
  destruct (run handler (g a) w1) as [[w3 t3] o3].
  simpl in *. rewrite !calls_app. congruence.
Qed.

Lemma same_effects_vis {A} (c : call) (k k' : resp c -> prog A) :
  (forall r, same_effects handler (k r) (k' r)) ->
  same_effects handler (Vis c k) (Vis c k').
Proof.
  intros H w. simpl.
  destruct (handler c w) as [w1 [r|e]]; [|reflexivity].
  specialize (H r w1).
  destruct (run handler (k r) w1) as [[w2 t2] o2].
  destruct (run handler (k' r) w1) as [[w3 t3] o3].
  simpl in *. congruence.
Qed.

(** One turn of the loop. *)
Lemma optimisticUpdate_cons
    (mutationModel mutationOp : string) (mutationArgs : value)
    (modelMeta : ModelMeta) (setCache : SetCacheFunc) (logging : bool)
    (cacheItem : CacheItem) (rest : QueryCache) :
  let continue :=
    optimisticUpdate mutationModel mutationOp mutationArgs modelMeta
       rest setCache logging in
  let key := JSON_stringify (VArr (queryKey cacheItem)) in
  optimisticUpdate mutationModel mutationOp mutationArgs modelMeta
       (cacheItem :: rest) setCache logging
  = if truthy (state_error cacheItem) then
      if logging
      then Console (WarnSkippingError key (state_error cacheItem)) continue
      else continue
    else
      bind (lift (get_prop (element 4 (queryKey cacheItem)) "optimisticUpdate"))
        (fun flag =>
           if negb (truthy flag) then
             if logging then Console (LogSkippingOptOut key) continue
             else continue
           else
             Vis (CApplyMutation (element 1 (queryKey cacheItem))
                    (element 2 (queryKey cacheItem)) (state_data cacheItem)
                    mutationModel mutationOp mutationArgs logging)
               (fun mutatedData =>
                  if negb (is_undefined mutatedData) then
                    bind
                      (if logging
                       then Console
                              (LogOptimisticallyUpdating key mutationModel
                                 mutationOp)
                              (setCache (queryKey cacheItem) mutatedData)
                       else setCache (queryKey cacheItem) mutatedData)
                      (fun _ => continue)
                  else continue)).
Proof. reflexivity. Qed.


Lemma scan_cons
    (mutationModel mutationOp : string) (mutationArgs : value)
    (modelMeta : ModelMeta) (setCache : SetCacheFunc) (logging : bool)
    (item : CacheItem) (rest rest' : QueryCache) :
  same_effects handler
    (optimisticUpdate mutationModel mutationOp mutationArgs modelMeta
       rest setCache logging)
    (optimisticUpdate mutationModel mutationOp mutationArgs modelMeta
       rest' setCache logging) ->
  same_effects handler
    (optimisticUpdate mutationModel mutationOp mutationArgs modelMeta
       (item :: rest) setCache logging)
    (optimisticUpdate mutationModel mutationOp mutationArgs modelMeta
       (item :: rest') setCache logging).
Proof.
  intros H. rewrite !optimisticUpdate_cons. cbv zeta.
  destruct (truthy (state_error item)).
  { destruct logging; [apply same_effects_console_both|]; exact H. }
  apply same_effects_bind. intros flag.
  destruct (negb (truthy flag)).
  { destruct logging; [apply same_effects_console_both|]; exact H. }
  apply same_effects_vis. intros mutatedData.
  destruct (negb (is_undefined mutatedData)); [|exact H].
  apply same_effects_bind. intros _. exact H.
Qed.


End ScanProperties.

(** ** The lifecycle wrappers *)

Section WrapperProperties.

Variable W : Type.
Variable handler : forall c : call, W -> W * outcome (resp c).
Variable ModelMeta : Type.
Variable getMutatedModels : string -> string -> value -> ModelMeta -> list string.
Variable getReadModels : value -> ModelMeta -> value -> list string.



End WrapperProperties.

(** ** Invalidation on success and on settlement *)

Lemma invalidations_app (t1 t2 : list event) :
  invalidations (t1 ++ t2) = invalidations t1 ++ invalidations t2.
Proof.
  induction t1 as [|[c|m] t1 IH]; simpl; [reflexivity| |assumption].
  destruct c; simpl; rewrite IH; reflexivity.
Qed.

Lemma silent_bind {A B} (p : prog A) (f : A -> prog B) :
  silent p -> (forall a, silent (f a)) -> silent (bind p f).
Proof.
  intros Hp Hf. induction Hp; simpl; try constructor; auto.
Qed.

Lemma silent_lift {A} (o : outcome A) : silent (lift o).
Proof. destruct o; constructor. Qed.

Lemma silent_call_opt (h : option hook) (args : list value) :
  silent_hook h -> silent (call_opt h args).
Proof. destruct h; simpl; intros H; [apply H|constructor]. Qed.

Lemma silent_crossFetch (url : string) (options : option RequestInit) :
  silent (crossFetch_fetch url options).
Proof. constructor; [reflexivity|]. intros r. constructor. Qed.

Lemma silent_fetcher (deserialize : value -> value -> outcome value)
    (url : string) (options : option RequestInit) (fetch : option FetchFn)
    (checkReadBack : option bool) :
  (forall u o, silent (effective_fetch fetch u o)) ->
  silent (fetcher deserialize url options fetch checkReadBack).
Proof.
  intros Hf. unfold fetcher. apply silent_bind; [apply Hf|].
  intros res. destruct (negb (ok res)).
  - apply silent_bind; [apply silent_lift|]. intros errData.
    apply silent_bind; [apply silent_lift|]. intros [|]; [constructor|].
    apply silent_bind; [apply silent_lift|]. intros info. constructor.
  - destruct (obind _ _); repeat constructor.
Qed.

Lemma silent_setQueryData_and_cancel (queryKey : list value) (data : value) :
  silent (setQueryData_and_cancel queryKey data).
Proof.
  unfold setQueryData_and_cancel, trigger. simpl.
  constructor; [reflexivity|]. intros _.
  constructor; [reflexivity|]. intros _. constructor.
Qed.

Lemma silent_optimisticUpdate (ModelMeta : Type)
    (mutationModel mutationOp : string) (mutationArgs : value)
    (modelMeta : ModelMeta) (queryCache : QueryCache)
    (setCache : SetCacheFunc) (logging : bool) :
  (forall k d, silent (setCache k d)) ->
  silent (optimisticUpdate mutationModel mutationOp mutationArgs modelMeta
            queryCache setCache logging).
Proof.
  intros Hset. induction queryCache as [|item rest IH]; [constructor|].
  rewrite optimisticUpdate_cons. cbv zeta.
  destruct (truthy (state_error item)).
  { destruct logging; [constructor|]; exact IH. }
  apply silent_bind; [apply silent_lift|]. intros flag.
  destruct (negb (truthy flag)).
  { destruct logging; [constructor|]; exact IH. }
  constructor; [reflexivity|]. intros mutatedData.
  destruct (negb (is_undefined mutatedData)); [|exact IH].
  apply silent_bind; [|intros _; exact IH].
  destruct logging; [constructor|]; apply Hset.
Qed.

Section InvalidationTwice.

Variable W : Type.
Variable handler : forall c : call, W -> W * outcome (resp c).
Variable ModelMeta : Type.
Variable getMutatedModels : string -> string -> value -> ModelMeta -> list string.
Variable getReadModels : value -> ModelMeta -> value -> list string.
Variable serialize : value -> value * value.
Variable deserialize : value -> value -> outcome value.
Variable encodeURIComponent : option text -> string.

Lemma silent_run {A} (p : prog A) (w : W) :
  silent p -> invalidations (trace_of (run handler p w)) = [].
Proof.
  intros Hp. revert w.
  induction Hp as [a|e|m k Hk IH|c k Hc Hk IH]; intros w; simpl;
    try reflexivity.
  - specialize (IH w). destruct (run handler k w) as [[w1 t1] o1]. exact IH.
  - destruct (handler c w) as [w1 [r|e]].
    + specialize (IH r w1).
      destruct (run handler (k r) w1) as [[w2 t2] o2].
      unfold trace_of in *. simpl in *. destruct c; try discriminate; exact IH.
    + unfold trace_of. simpl. destruct c; try discriminate; reflexivity.
Qed.

(** A sequence that succeeds is made of two parts that succeed. *)
Lemma run_bind_Ok {A B} (p : prog A) (f : A -> prog B) (w w' : W)
    (t : list event) (b : B) :
  run handler (bind p f) w = (w', t, Ok b) ->
  exists w1 t1 a t2,
    run handler p w = (w1, t1, Ok a)
    /\ run handler (f a) w1 = (w', t2, Ok b)
    /\ t = t1 ++ t2.
Proof.
  rewrite run_bind.
  destruct (run handler p w) as [[w1 t1] [a|e]]; simpl; [|discriminate].
  destruct (run handler (f a) w1) as [[w2 t2] o2] eqn:E.
  intros H. injection H as -> <- ->.
  exists w1, t1, a, t2. auto.
Qed.

(** A phase that invalidates and then runs the callback of the caller hands
    exactly one predicate to the query client. *)
Lemma invalidate_then_hook (P : InvalidationPredicate) (orig : option hook)
    (args : list value) (w : W) :
  silent_hook orig ->
  invalidations
    (trace_of (run handler (invalidateQueries P ;;; call_opt orig args) w))
  = [P].
Proof.
  intros Horig. unfold invalidateQueries, trigger. simpl.
  destruct (handler (CInvalidateQueries P) w) as [w1 [r|e]]; [|reflexivity].
  pose proof (silent_run w1 (silent_call_opt orig args Horig)) as Hs.
  destruct (run handler (call_opt orig args) w1) as [[w2 t2] o2].
  unfold trace_of in *. simpl in *. now rewrite Hs.
Qed.

Local Abbreviation mutation_options :=
  (useModelMutation getMutatedModels getReadModels serialize deserialize
     encodeURIComponent).

Local Abbreviation predicate_for :=
  (getInvalidationPredicate getMutatedModels getReadModels).

(** The options that [useModelMutation] hands to [useMutation] when an
    operation name is found in the URL and both features are enabled. *)
Lemma useModelMutation_both
    (logging : option bool) (cached : QueryCache) (model : string)
    (method : http_method) (url operation : string) (modelMeta : ModelMeta)
    (options : option MutationOptions) (fetch : option FetchFn)
    (invalidateQueries_ checkReadBack : option bool) :
  pop (split "/" url) = Some operation ->
  operation <> "" ->
  or_default true invalidateQueries_ = true ->
  let caller := match options with Some o => o | None => no_options end in
  let logging' := or_default false logging in
  mutation_options logging cached model method url modelMeta options fetch
    invalidateQueries_ checkReadBack (Some true)
  = mkMutationOptions
      (mutationFn
         (mutation_options logging cached model method url modelMeta options
            fetch invalidateQueries_ checkReadBack (Some true)))
      (Some (fun args =>
         optimisticUpdate model operation (element 0 args) modelMeta cached
           setQueryData_and_cancel logging' ;;;
         call_opt (onMutate caller) args))
      (Some (fun args =>
         invalidateQueries
           (predicate_for model operation (element 1 args) modelMeta logging') ;;;
         call_opt (onSuccess caller) args))
      (Some (fun args =>
         invalidateQueries
           (predicate_for model operation (element 2 args) modelMeta logging') ;;;
         call_opt (onSettled caller) args)).
Proof.
  intros Hop Hne Hinv.
  assert (Htruthy : truthy (VStr operation) = true).
  { simpl. destruct (String.eqb_spec operation ""); [contradiction|reflexivity]. }
  unfold useModelMutation. rewrite Hop, Htruthy, Hinv. reflexivity.
Qed.

(** The mutation function is [fetcher] on the request for the data. *)
Lemma useModelMutation_mutationFn
    (logging : option bool) (cached : QueryCache) (model : string)
    (method : http_method) (url : string) (modelMeta : ModelMeta)
    (options : option MutationOptions) (fetch : option FetchFn)
    (invalidateQueries_ checkReadBack optimisticUpdate_ : option bool) :
  exists request : value -> string * option RequestInit,
    mutationFn
      (mutation_options logging cached model method url modelMeta options
         fetch invalidateQueries_ checkReadBack optimisticUpdate_)
    = Some (fun data =>
              fetcher deserialize (fst (request data)) (snd (request data))
                fetch checkReadBack).
Proof.
  exists (fun data =>
            (match method with DELETE => makeUrl serialize encodeURIComponent url data | _ => url end,
             Some match method with
                  | DELETE => mkRequestInit (method_name method) [] None
                  | _ => mkRequestInit (method_name method)
                           [("content-type", "application/json")]
                           (Some (marshal serialize data))
                  end)).
  unfold useModelMutation.
  destruct (pop (split "/" url)) as [operation|]; [|reflexivity].
  destruct (truthy (VStr operation)); [|reflexivity].
  destruct (or_default true invalidateQueries_),
           (or_default false optimisticUpdate_); reflexivity.
Qed.

(** The four stages of a mutation that succeeds. *)
Lemma execute_Ok (o : MutationOptions) (variables result : value)
    (w w' : W) (t : list event) :
  run handler (execute o variables) w = (w', t, Ok result) ->
  exists w1 w2 w3 t1 t2 t3 t4 context r3 r4,
    run handler (call_opt (onMutate o) [variables]) w = (w1, t1, Ok context)
    /\ run handler
         match mutationFn o with
         | Some f => f variables
         | None => Throw (Error "No mutationFn found")
         end w1 = (w2, t2, Ok result)
    /\ run handler (call_opt (onSuccess o) [result; variables; context]) w2
       = (w3, t3, Ok r3)
    /\ run handler (call_opt (onSettled o) [result; VNull; variables; context]) w3
       = (w', t4, Ok r4)
    /\ t = t1 ++ t2 ++ t3 ++ t4.
Proof.
  unfold execute. intros Hrun.
  apply run_bind_Ok in Hrun as (w1 & t1 & context & t1' & Hmut & Hrun & ->).
  apply run_bind_Ok in Hrun as (w2 & t2 & data & t2' & Hfn & Hrun & ->).
  apply run_bind_Ok in Hrun as (w3 & t3 & r3 & t3' & Hsucc & Hrun & ->).
  apply run_bind_Ok in Hrun as (w4 & t4 & r4 & t4' & Hsett & Hrun & ->).
  simpl in Hrun. injection Hrun as <- <- <-.
  exists w1, w2, w3, t1, t2, t3, t4, context, r3, r4.
  rewrite app_nil_r. auto.
Qed.

(** Two invalidations, for callbacks and a [fetch] function that do not
    invalidate on their own. *)
Lemma invalidated_twice
    (logging : option bool) (cached : QueryCache) (model : string)
    (method : http_method) (url operation : string) (modelMeta : ModelMeta)
    (options : option MutationOptions) (fetch : option FetchFn)
    (invalidateQueries_ checkReadBack : option bool)
    (variables result : value) (w w' : W) (t : list event) :
  pop (split "/" url) = Some operation ->
  operation <> "" ->
  or_default true invalidateQueries_ = true ->
  silent_options options ->
  (forall u o, silent (effective_fetch fetch u o)) ->
  run handler
    (execute (mutation_options logging cached model method url modelMeta
                options fetch invalidateQueries_ checkReadBack (Some true))
       variables) w
  = (w', t, Ok result) ->
  exists onSuccess' onSettled' : hook,
    onSuccess (mutation_options logging cached model method url modelMeta
                 options fetch invalidateQueries_ checkReadBack (Some true))
    = Some onSuccess'
    /\ onSettled (mutation_options logging cached model method url modelMeta
                    options fetch invalidateQueries_ checkReadBack (Some true))
       = Some onSettled'
    /\ (forall data context w1,
          invalidations
            (trace_of (run handler (onSuccess' [data; variables; context]) w1))
          = [predicate_for model operation variables modelMeta
               (or_default false logging)])
    /\ (forall data error context w1,
          invalidations
            (trace_of
               (run handler (onSettled' [data; error; variables; context]) w1))
          = [predicate_for model operation variables modelMeta
               (or_default false logging)])
    /\ invalidations t
       = [ predicate_for model operation variables modelMeta
             (or_default false logging);
           predicate_for model operation variables modelMeta
             (or_default false logging) ].
Proof.
  intros Hop Hne Hinv Hopts Hfetch Hrun.
  assert (Hcaller :
    silent_hook (onMutate (match options with Some o => o | None => no_options end))
    /\ silent_hook (onSuccess (match options with Some o => o | None => no_options end))
    /\ silent_hook (onSettled (match options with Some o => o | None => no_options end))).
  { destruct options as [o|]; simpl in *; auto. }
  destruct Hcaller as (HcM & HcS & HcT).
  assert (Htruthy : truthy (VStr operation) = true).
  { simpl. destruct (String.eqb_spec operation ""); [contradiction|reflexivity]. }
  rewrite (@useModelMutation_both logging cached model method url operation
             modelMeta options fetch invalidateQueries_ checkReadBack
             Hop Hne Hinv) in Hrun |- *.
  set (caller := match options with Some o => o | None => no_options end) in *.
  eexists. eexists. split; [reflexivity|]. split; [reflexivity|].
  split; [|split].
  - intros data context w1. apply invalidate_then_hook, HcS.
  - intros data error context w1. apply invalidate_then_hook, HcT.
  - apply execute_Ok in Hrun
      as (w1 & w2 & w3 & t1 & t2 & t3 & t4 & context & r3 & r4
          & Hmut & Hfn & Hsucc & Hsett & ->).
    cbn [call_opt onMutate onSuccess onSettled mutationFn] in *.
    rewrite !invalidations_app.
    assert (H1 : invalidations t1 = []).
    { change t1 with (trace_of (w1, t1, Ok context)). rewrite <- Hmut.
      apply silent_run, silent_bind.
      - apply silent_optimisticUpdate, silent_setQueryData_and_cancel.
      - intros _. apply silent_call_opt, HcM. }
    assert (H2 : invalidations t2 = []).
    { change t2 with (trace_of (w2, t2, Ok result)). rewrite <- Hfn.
      destruct (useModelMutation_mutationFn logging cached model method url
                  modelMeta options fetch invalidateQueries_ checkReadBack
                  (Some true)) as (request & ->).
      apply silent_run, silent_fetcher, Hfetch. }
    assert (H3 : invalidations t3
                 = [predicate_for model operation variables modelMeta
                      (or_default false logging)]).
    { change t3 with (trace_of (w3, t3, Ok r3)). rewrite <- Hsucc.
      apply invalidate_then_hook, HcS. }
    assert (H4 : invalidations t4
                 = [predicate_for model operation variables modelMeta
                      (or_default false logging)]).
    { change t4 with (trace_of (w', t4, Ok r4)). rewrite <- Hsett.
      apply invalidate_then_hook, HcT. }
    rewrite H1, H2, H3, H4. reflexivity.
Qed.

Lemma silent_supplied_options (mutate success settled : bool) :
  silent_options (Some (supplied_options mutate success settled)).
Proof.
  destruct mutate, success, settled; simpl; repeat split;
    intros args; (constructor; [reflexivity|]); intros r; constructor.
Qed.

Lemma silent_supplied_fetch (present : bool) (url : string)
    (options : option RequestInit) :
  silent (effective_fetch (supplied_fetch present) url options).
Proof.
  destruct present; simpl; (constructor; [reflexivity|]);
    intros r; constructor.
Qed.

(** C10, as the code has it.  With invalidation and optimistic update
    both enabled and a URL whose last segment, the operation name, is not
    empty, the options built by [useModelMutation] invalidate in two
    phases, each time with the predicate built for the same model,
    operation and variables, hence over the same mutated-model set: the
    [onSuccess] phase hands one predicate to the query client, the
    [onSettled] phase hands one, and a mutation that succeeds hands over
    exactly these two, in that order.  This holds whichever callbacks and
    [fetch] function the caller supplied. *)
Theorem invalidated_on_success_and_on_settled
    (logging : option bool) (cached : QueryCache) (model : string)
    (method : http_method) (url operation : string) (modelMeta : ModelMeta)
    (mutate success settled custom_fetch : bool)
    (invalidateQueries_ checkReadBack : option bool)
    (variables result : value) (w w' : W) (t : list event) :
  pop (split "/" url) = Some operation ->
  operation <> "" ->
  or_default true invalidateQueries_ = true ->
  run handler
    (execute (mutation_options logging cached model method url modelMeta
                (Some (supplied_options mutate success settled))
                (supplied_fetch custom_fetch) invalidateQueries_
                checkReadBack (Some true))
       variables) w
  = (w', t, Ok result) ->
  exists onSuccess' onSettled' : hook,
    onSuccess (mutation_options logging cached model method url modelMeta
                 (Some (supplied_options mutate success settled))
                 (supplied_fetch custom_fetch) invalidateQueries_
                 checkReadBack (Some true))
    = Some onSuccess'
    /\ onSettled (mutation_options logging cached model method url modelMeta
                    (Some (supplied_options mutate success settled))
                    (supplied_fetch custom_fetch) invalidateQueries_
                    checkReadBack (Some true))
       = Some onSettled'
    /\ (forall data context w1,
          invalidations
            (trace_of (run handler (onSuccess' [data; variables; context]) w1))
          = [predicate_for model operation variables modelMeta
               (or_default false logging)])
    /\ (forall data error context w1,
          invalidations
            (trace_of
               (run handler (onSettled' [data; error; variables; context]) w1))
          = [predicate_for model operation variables modelMeta
               (or_default false logging)])
    /\ invalidations t
       = [ predicate_for model operation variables modelMeta
             (or_default false logging);
           predicate_for model operation variables modelMeta
             (or_default false logging) ].
Proof.
  intros Hop Hne Hinv Hrun.
  apply (@invalidated_twice logging cached model method url operation
           modelMeta (Some (supplied_options mutate success settled))
           (supplied_fetch custom_fetch) invalidateQueries_ checkReadBack
           variables result w w' t Hop Hne Hinv).
  - apply silent_supplied_options.
  - apply silent_supplied_fetch.
  - exact Hrun.
Qed.

End InvalidationTwice.

(** C10 fails as stated.  With both features enabled and a URL that ends
    with "/", no operation name is found and nothing is set up: a mutation
    that succeeds hands no predicate to the query client. *)
Lemma no_invalidation_on_trailing_slash :
  snd (run (answering created_response (VArr []))
         (execute
            (useModelMutation schema_getMutatedModels schema_getReadModels
               date_serialize date_deserialize uri_stub None [posts_entry]
               "Post" POST "/api/model/post/" blog
               (Some (supplied_options true true true)) (supplied_fetch false)
               (Some true) None (Some true))
            new_post) tt)
  = Ok (VObj [("id", VNum 1)])
  /\ invalidations
       (trace_of
          (run (answering created_response (VArr []))
             (execute
                (useModelMutation schema_getMutatedModels schema_getReadModels
                   date_serialize date_deserialize uri_stub None [posts_entry]
                   "Post" POST "/api/model/post/" blog
                   (Some (supplied_options true true true))
                   (supplied_fetch false) (Some true) None (Some true))
                new_post) tt))
     = [].
Proof. split; reflexivity. Qed.

(** ** marshal and unmarshal *)

Lemma obj_set_fresh (k : string) (v : value) (acc : list (string * value)) :
  existsb (String.eqb k) (map fst acc) = false ->
  obj_set k v acc = acc ++ [(k, v)].
Proof.
  induction acc as [|[k' v'] acc IH]; simpl; [reflexivity|].
  intros H. apply orb_false_elim in H as [Hk Hrest].
  rewrite Hk, IH by assumption. reflexivity.
Qed.

Lemma existsb_app_false (k : string) (l1 l2 : list string) :
  existsb (String.eqb k) (l1 ++ l2) = false <->
  existsb (String.eqb k) l1 = false /\ existsb (String.eqb k) l2 = false.
Proof. rewrite existsb_app. apply orb_false_iff. Qed.

Lemma define_all_distinct (ms acc : list (string * value)) :
  distinct (map fst ms) = true ->
  (forall k, In k (map fst ms) -> existsb (String.eqb k) (map fst acc) = false) ->
  fold_left (fun a kv => obj_set (fst kv) (snd kv) a) ms acc = acc ++ ms.
Proof.
  revert acc. induction ms as [|[k v] ms IH]; intros acc Hd Hfresh; simpl.
  - now rewrite app_nil_r.
  - simpl in Hd. apply andb_prop in Hd as [Hk Hd].
    rewrite obj_set_fresh by (apply Hfresh; now left).
    rewrite IH; [now rewrite <- app_assoc|assumption|].
    intros k' Hin. rewrite map_app. apply existsb_app_false. split.
    + apply Hfresh. now right.
    + simpl. rewrite orb_false_r.
      destruct (String.eqb_spec k' k) as [->|]; [|reflexivity].
      apply negb_true_iff in Hk.
      assert (Hex : existsb (String.eqb k) (map fst ms) = true).
      { apply existsb_exists. exists k. split; [assumption|apply String.eqb_refl]. }
      congruence.
Qed.

(** Parsing the rendering of a plain value gives the value back. *)
Lemma of_json_to_json (v : value) :
  json_plain v = true -> of_json (to_json v) = v.
Proof.
  induction v as [| | | | | |items IH|fields IH] using value_rect';
    simpl; try reflexivity; try discriminate; intros Hp.
  - f_equal. rewrite map_map.
    induction IH as [|x rest Hx _ IHrest]; [reflexivity|].
    simpl in *. apply andb_prop in Hp as [Hpx Hprest].
    rewrite Hx, IHrest by assumption. reflexivity.
  - apply andb_prop in Hp as [Hd Hall]. f_equal.
    match goal with
    | |- define_all (map _ ?ms) = _ => assert (Hms : map (fun kx => (fst kx, of_json (snd kx))) ms = fields)
    end.
    { clear Hd. induction IH as [|[k x] rest Hx _ IHrest]; [reflexivity|].
      simpl in *. apply andb_prop in Hall as [Hpx Hprest].
      destruct x; try discriminate; simpl;
        (rewrite IHrest by assumption; f_equal; f_equal;
         apply Hx; exact Hpx). }
    rewrite Hms. unfold define_all.
    rewrite define_all_distinct; [reflexivity|assumption|reflexivity].
Qed.

Section WireProperties.

Variable serialize : value -> value * value.
Variable deserialize : value -> value -> outcome value.

(** C1, as the code has it.  A value other than [null] that JSON
    represents as it is, that [serialize] leaves unchanged with no
    metadata, and that is not itself shaped like a response envelope
    (truthy [data] with truthy [meta.serialization]), comes back from
    [unmarshal(marshal(x))] unchanged. *)
Theorem unmarshal_marshal_plain (x : value) :
  json_plain x = true ->
  serialize x = (x, VUndefined) ->
  x <> VNull ->
  carries_serialization x = false ->
  unmarshal_marshal serialize deserialize x = Ok x.
Proof.
  intros Hp Hs Hnull Hc.
  unfold unmarshal_marshal, marshal. rewrite Hs. simpl.
  assert (Hstr : JSON_stringify x = Some (Doc (to_json x))).
  { destruct x; try reflexivity; discriminate. }
  rewrite Hstr. unfold unmarshal. simpl. rewrite (of_json_to_json x Hp).
  unfold unmarshal_parsed. unfold carries_serialization in Hc.
  destruct (get_prop x "data") as [data|e] eqn:Hdata.
  - simpl. destruct (truthy data) eqn:Ht; [|simpl; now rewrite Ht].
    simpl in Hc.
    destruct (obind (get_prop x "meta") _) as [s|e] eqn:Hmeta.
    + simpl. rewrite Hc. reflexivity.
    + exfalso. destruct x; simpl in *; try discriminate; try contradiction.
      destruct (obj_get "meta" fields) as [[]|]; simpl in *; try discriminate;
        match type of Hmeta with context [obj_get ?k ?f] =>
          destruct (obj_get k f); discriminate end.
  - exfalso. destruct x; simpl in *; try discriminate; try contradiction.
    destruct (obj_get "data" fields); discriminate.
Qed.

End WireProperties.

(** C1 fails as stated.  [null] is JSON-representable, yet unmarshalling
    its marshalled form throws; an object holding a date is marshalled as
    its serialized members next to a [meta] member, and unmarshalling
    returns that flat object, the date still a string. *)
Lemma unmarshal_marshal_not_inverse :
  unmarshal_marshal date_serialize date_deserialize VNull
  = Thrown (TypeError "Cannot read properties of undefined or null")
  /\ unmarshal_marshal date_serialize date_deserialize
       (VObj [("createdAt", VDate "2024-01-01T00:00:00.000Z")])
     = Ok (VObj [ ("createdAt", VStr "2024-01-01T00:00:00.000Z");
                  ("meta",
                   VObj [("serialization",
                          VObj [("values",
                                 VObj [("createdAt", VArr [VStr "Date"])])])]) ]).
Proof. split; reflexivity. Qed.

(** The stand-in serializer leaves a plain value alone and attaches no
    metadata to it. *)
Lemma plain_data_plain (v : value) : json_plain v = true -> plain_data v = v.
Proof.
  induction v as [| | | | | |items IH|fields IH] using value_rect';
    simpl; try reflexivity; try discriminate; intros Hp.
  - f_equal. induction IH as [|x rest Hx _ IHrest]; [reflexivity|].
    simpl in *. apply andb_prop in Hp as [Hpx Hprest].
    rewrite Hx, IHrest by assumption. reflexivity.
  - apply andb_prop in Hp as [_ Hall]. f_equal.
    induction IH as [|[k x] rest Hx _ IHrest]; [reflexivity|].
    simpl in *. apply andb_prop in Hall as [Hpx Hprest].
    rewrite Hx, IHrest by assumption. reflexivity.
Qed.

Lemma annotations_plain (v : value) : json_plain v = true -> annotations v = None.
Proof.
  induction v as [| | | | | |items IH|fields IH] using value_rect';
    simpl; try reflexivity; try discriminate; intros Hp.
  - generalize 0. induction IH as [|x rest Hx _ IHrest]; intros i;
      [reflexivity|].
    simpl in *. apply andb_prop in Hp as [Hpx Hprest].
    rewrite Hx by assumption. now apply IHrest.
  - apply andb_prop in Hp as [_ Hall].
    induction IH as [|[k x] rest Hx _ IHrest]; [reflexivity|].
    simpl in *. apply andb_prop in Hall as [Hpx Hprest].
    rewrite Hx by assumption. now apply IHrest.
Qed.

Lemma date_serialize_plain (v : value) :
  json_plain v = true -> date_serialize v = (v, VUndefined).
Proof.
  intros Hp. unfold date_serialize.
  now rewrite plain_data_plain, annotations_plain.
Qed.

(** On a value with dates, the stand-in [deserialize] undoes the stand-in
    [serialize]. *)
Example date_serialize_roundtrip :
  let v := VObj [ ("title", VStr "Hello");
                  ("createdAt", VDate "2024-01-01T00:00:00.000Z");
                  ("edits", VArr [VDate "2024-02-01T00:00:00.000Z"; VNull]) ] in
  date_deserialize (fst (date_serialize v)) (VObj [("values",
     VObj [ ("createdAt", VArr [VStr "Date"]);
            ("edits", VObj [("0", VArr [VStr "Date"])]) ])])
  = Ok v
  /\ snd (date_serialize v)
     = VObj [("values",
        VObj [ ("createdAt", VArr [VStr "Date"]);
               ("edits", VObj [("0", VArr [VStr "Date"])]) ])].
Proof. split; reflexivity. Qed.

(** Scenario A of the specification, on the blog schema: after an update
    of a post, the query on users that includes their posts is
    invalidated, a query on tags is not. *)
Example scenario_A :
  snd (getInvalidationPredicate schema_getMutatedModels schema_getReadModels
         "Post" "update" new_post blog false users_key) = true
  /\ snd (getInvalidationPredicate schema_getMutatedModels schema_getReadModels
           "Post" "update" new_post blog false
           [ VStr "zenstack"; VStr "Tag"; VStr "findMany";
             VObj [("where", VObj [("name", VStr "rocq")])];
             flags false false ]) = false.
Proof. split; reflexivity. Qed.

(** ** The theorems on sample inputs *)

Lemma unmarshal_marshal_plain_witness :
  unmarshal_marshal date_serialize date_deserialize
    (VObj [("title", VStr "Hello"); ("views", VNum 3)])
  = Ok (VObj [("title", VStr "Hello"); ("views", VNum 3)]).
Proof.
  apply unmarshal_marshal_plain.
  - reflexivity.
  - reflexivity.
  - discriminate.
  - reflexivity.
Defined.

Lemma fetcher_ok_status_error_body_witness :
  run (answering (denied_response 200) VUndefined)
    (fetcher date_deserialize "/api/model/post/delete" (Some delete_init)
       None None) tt
  = (tt, [ECall (CFetch "/api/model/post/delete" (Some delete_init))],
     Ok VUndefined).
Proof.
  apply (@fetcher_ok_status_error_body unit
           (answering (denied_response 200) VUndefined) date_deserialize
           "/api/model/post/delete" (Some delete_init) None None tt tt
           [ECall (CFetch "/api/model/post/delete" (Some delete_init))]
           (denied_response 200) (of_json denied_error)).
  - reflexivity.
  - reflexivity.
  - reflexivity.
  - reflexivity.
  - discriminate.
Defined.

Lemma fetcher_policy_denied_witness :
  run (answering (denied_response 403) VUndefined)
    (fetcher date_deserialize "/api/model/post/delete" (Some delete_init)
       None None) tt
  = (tt, [ECall (CFetch "/api/model/post/delete" (Some delete_init))],
     Ok VUndefined)
  /\ run (answering (denied_response 403) VUndefined)
       (fetcher date_deserialize "/api/model/post/delete" (Some delete_init)
          None (Some false)) tt
     = (tt, [ECall (CFetch "/api/model/post/delete" (Some delete_init))],
        Thrown (FetchError "An error occurred while fetching the data."
                  (of_json denied_error) 403)).
Proof.
  split.
  - apply (@fetcher_policy_denied unit
             (answering (denied_response 403) VUndefined) date_deserialize
             "/api/model/post/delete" (Some delete_init) None None tt tt
             [ECall (CFetch "/api/model/post/delete" (Some delete_init))]
             (denied_response 403)
             (VObj [("error", of_json denied_error)]) (of_json denied_error));
      reflexivity.
  - apply (@fetcher_policy_denied unit
             (answering (denied_response 403) VUndefined) date_deserialize
             "/api/model/post/delete" (Some delete_init) None (Some false)
             tt tt
             [ECall (CFetch "/api/model/post/delete" (Some delete_init))]
             (denied_response 403)
             (VObj [("error", of_json denied_error)]) (of_json denied_error));
      reflexivity.
Defined.

Lemma no_args_only_direct_hit_witness :
  snd (getInvalidationPredicate schema_getMutatedModels schema_getReadModels
         "Post" "create" new_post blog false posts_key) = true
  <-> In "Post" (schema_getMutatedModels "Post" "create" new_post blog).
Proof.
  apply (@no_args_only_direct_hit Schema schema_getMutatedModels
           schema_getReadModels "Post" "create" new_post blog false posts_key
           "Post").
  - reflexivity.
  - reflexivity.
Defined.




Lemma invalidated_on_success_and_on_settled_witness :
  invalidations
    (trace_of
       (run (answering created_response (VArr []))
          (execute
             (useModelMutation schema_getMutatedModels schema_getReadModels
                date_serialize date_deserialize uri_stub None
                [posts_entry; failed_users_entry] "Post" POST
                "/api/model/post/create" blog
                (Some (supplied_options true true true))
                (supplied_fetch false) None None (Some true))
             new_post) tt))
  = [ getInvalidationPredicate schema_getMutatedModels schema_getReadModels
        "Post" "create" new_post blog false;
      getInvalidationPredicate schema_getMutatedModels schema_getReadModels
        "Post" "create" new_post blog false ].
Proof.
  destruct (@invalidated_on_success_and_on_settled unit
              (answering created_response (VArr [])) Schema
              schema_getMutatedModels schema_getReadModels date_serialize
              date_deserialize uri_stub None
              [posts_entry; failed_users_entry] "Post" POST
              "/api/model/post/create" "create" blog true true true false
              None None new_post (VObj [("id", VNum 1)]) tt tt
              (trace_of
                 (run (answering created_response (VArr []))
                    (execute
                       (useModelMutation schema_getMutatedModels
                          schema_getReadModels date_serialize date_deserialize
                          uri_stub None [posts_entry; failed_users_entry]
                          "Post" POST "/api/model/post/create" blog
                          (Some (supplied_options true true true))
                          (supplied_fetch false) None None (Some true))
                       new_post) tt)))
    as (onSuccess' & onSettled' & _ & _ & _ & _ & H).
  - reflexivity.
  - discriminate.
  - reflexivity.
  - reflexivity.
  - exact H.
Defined.

(* ===================================================================== *)
(** * Further properties of the runtime *)
(* ===================================================================== *)

(** ** fetcher, beyond the denied read-back *)

Lemma read_back_denied_test (checkReadBack : option bool) (errData e : value) :
  get_prop errData "error" = Ok e ->
  read_back_denied checkReadBack errData
  = Ok (read_back_checked checkReadBack && denied_payload e).
Proof.
  intros He. unfold read_back_denied, denied_payload, member.
  destruct checkReadBack as [[|]|]; simpl; try reflexivity; rewrite He; simpl;
    (destruct e as [| | | | | | |fields]; simpl; try reflexivity;
     destruct (obj_get "prisma" fields) as [prisma|]; simpl;
       [destruct (truthy prisma); simpl; [|reflexivity]|reflexivity];
     destruct (obj_get "code" fields) as [code|]; simpl;
       [destruct (strict_eq_str code "P2004"); simpl; [|reflexivity]|reflexivity];
     destruct (obj_get "reason" fields); reflexivity).
Qed.

Lemma obj_get_obj_set_same (k : string) (v : value)
    (fields : list (string * value)) :
  obj_get k (obj_set k v fields) = Some v.
Proof.
  induction fields as [|[k' v'] rest IH]; cbn [obj_get obj_set].
  - now rewrite String.eqb_refl.
  - destruct (String.eqb k k') eqn:E; cbn [obj_get]; rewrite E; auto.
Qed.

Lemma obj_get_obj_set_other (k k' : string) (v : value)
    (fields : list (string * value)) :
  k <> k' -> obj_get k' (obj_set k v fields) = obj_get k' fields.
Proof.
  intros Hne. induction fields as [|[k0 v0] rest IH]; cbn [obj_get obj_set].
  - destruct (String.eqb_spec k' k); [congruence|reflexivity].
  - destruct (String.eqb_spec k k0) as [->|Hk]; cbn [obj_get].
    + destruct (String.eqb_spec k' k0); [congruence|reflexivity].
    + destruct (String.eqb k' k0); auto.
Qed.

Section FetcherFurther.

Variable W : Type.
Variable handler : forall c : call, W -> W * outcome (resp c).
Variable deserialize : value -> value -> outcome value.

Lemma fetcher_not_ok_run
    (url : string) (options : option RequestInit) (fetch : option FetchFn)
    (checkReadBack : option bool) (w w1 : W) (t : list event)
    (res : Response) (errData e : value) :
  run handler (effective_fetch fetch url options) w = (w1, t, Ok res) ->
  ok res = false ->
  unmarshal deserialize (res_text res) = Ok errData ->
  get_prop errData "error" = Ok e ->
  run handler (fetcher deserialize url options fetch checkReadBack) w
  = (w1, t,
     if read_back_checked checkReadBack && denied_payload e
     then Ok VUndefined
     else Thrown (FetchError "An error occurred while fetching the data." e
                    (status res))).
Proof.
  intros Hfetch Hok Hun He. unfold fetcher.
  rewrite run_bind, Hfetch. simpl. rewrite Hok. simpl.
  rewrite Hun. simpl. rewrite (read_back_denied_test checkReadBack _ He).
  simpl. destruct (read_back_checked checkReadBack && denied_payload e); simpl.
  - rewrite app_nil_r. reflexivity.
  - rewrite He. simpl. rewrite app_nil_r. reflexivity.
Qed.

(** X1.  A response outside 200-299 never resolves to data.  It resolves
    to [undefined] when read-back checking is on and the error payload
    passes the test; in every other case, and always under
    [checkReadBack = false], it rejects with the error that carries the
    payload and the status. *)
Theorem fetcher_not_ok
    (url : string) (options : option RequestInit) (fetch : option FetchFn)
    (checkReadBack : option bool) (w w1 : W) (t : list event)
    (res : Response) (errData e : value) :
  run handler (effective_fetch fetch url options) w = (w1, t, Ok res) ->
  ok res = false ->
  unmarshal deserialize (res_text res) = Ok errData ->
  get_prop errData "error" = Ok e ->
  run handler (fetcher deserialize url options fetch checkReadBack) w
  = (w1, t,
     if read_back_checked checkReadBack && denied_payload e
     then Ok VUndefined
     else Thrown (FetchError "An error occurred while fetching the data." e
                    (status res))).
Proof. apply fetcher_not_ok_run. Qed.

(** X2.  On a 2xx response whose body is an envelope with a truthy [data]
    and a truthy [meta.serialization], [fetcher] resolves to what
    [deserialize] makes of the two; when [deserialize] throws, the raw
    text goes to [console.error] and the exception is rethrown. *)
Theorem fetcher_ok_revives_data
    (url : string) (options : option RequestInit) (fetch : option FetchFn)
    (checkReadBack : option bool) (w w1 : W) (t : list event)
    (res : Response) (fields : list (string * value)) (data meta ser : value) :
  run handler (effective_fetch fetch url options) w = (w1, t, Ok res) ->
  ok res = true ->
  JSON_parse (res_text res) = Ok (VObj fields) ->
  obj_get "data" fields = Some data ->
  truthy data = true ->
  obj_get "meta" fields = Some meta ->
  get_prop_opt meta "serialization" = Ok ser ->
  truthy ser = true ->
  run handler (fetcher deserialize url options fetch checkReadBack) w
  = match deserialize data ser with
    | Ok revived => (w1, t, Ok revived)
    | Thrown err =>
        (w1, t ++ [EConsole (ErrorUnableToDeserialize (res_text res))],
         Thrown err)
    end.
Proof.
  intros Hfetch Hok Hparse Hdata Htd Hmeta Hser Hts. unfold fetcher.
  rewrite run_bind, Hfetch. simpl. rewrite Hok. simpl.
  unfold unmarshal. rewrite Hparse. simpl.
  unfold unmarshal_parsed, get_prop. rewrite Hdata. simpl. rewrite Htd.
  rewrite Hmeta. simpl. rewrite Hser. simpl. rewrite Hts.
  assert (Hser' : match meta with
                  | VUndefined | VNull =>
                      Thrown (TypeError "Cannot read properties of undefined or null")
                  | VObj fs => match obj_get "serialization" fs with
                               | Some x => Ok x
                               | None => Ok VUndefined
                               end
                  | _ => Ok VUndefined
                  end = Ok ser).
  { destruct meta; simpl in *; try exact Hser;
      injection Hser as <-; discriminate. }
  rewrite Hser'. simpl.
  destruct (deserialize data ser) as [revived|err]; simpl.
  - rewrite obj_get_obj_set_same. simpl. rewrite app_nil_r. reflexivity.
  - reflexivity.
Qed.

(** X3.  On a 2xx response whose body is JSON without serialization
    metadata, [fetcher] resolves to the [data] member of the body as it
    was parsed, [undefined] when there is none, whatever the read-back
    flag.  The one such body that has no member to read, [null], goes to
    [console.error] and is rejected with the [TypeError] of the member
    access. *)
Theorem fetcher_ok_plain_body
    (url : string) (options : option RequestInit) (fetch : option FetchFn)
    (checkReadBack : option bool) (w w1 : W) (t : list event)
    (res : Response) (parsed : value) :
  run handler (effective_fetch fetch url options) w = (w1, t, Ok res) ->
  ok res = true ->
  JSON_parse (res_text res) = Ok parsed ->
  carries_serialization parsed = false ->
  run handler (fetcher deserialize url options fetch checkReadBack) w
  = match get_prop parsed "data" with
    | Ok data => (w1, t, Ok data)
    | Thrown err =>
        (w1, t ++ [EConsole (ErrorUnableToDeserialize (res_text res))],
         Thrown err)
    end.
Proof.
  intros Hfetch Hok Hparse Hc. unfold fetcher.
  rewrite run_bind, Hfetch. simpl. rewrite Hok. simpl.
  unfold unmarshal. rewrite Hparse. cbn [obind].
  destruct (get_prop parsed "data") as [data|err] eqn:Hdata.
  - assert (Hun : unmarshal_parsed deserialize parsed = Ok parsed).
    { unfold unmarshal_parsed. unfold carries_serialization in Hc.
      rewrite Hdata in *. simpl.
      destruct (truthy data) eqn:Ht; [|simpl; now rewrite Ht].
      simpl in Hc.
      destruct (obind (get_prop parsed "meta") _) as [s|err] eqn:Hmeta.
      - simpl. now rewrite Hc.
      - exfalso. destruct parsed; simpl in *; try discriminate.
        destruct (obj_get "meta" fields) as [[]|]; simpl in *; try discriminate;
          match type of Hmeta with context [obj_get ?k ?f] =>
            destruct (obj_get k f); discriminate end. }
    rewrite Hun. cbn [obind]. rewrite Hdata. simpl. rewrite app_nil_r.
    reflexivity.
  - unfold unmarshal_parsed. rewrite Hdata. reflexivity.
Qed.

(** X4.  A body that is not JSON makes [fetcher] reject with the syntax
    error of the parser on every status.  On a 2xx status the raw text is
    first written to [console.error]; outside 2xx nothing is written and
    the status of the response is not reported. *)
Theorem fetcher_malformed_body
    (url : string) (options : option RequestInit) (fetch : option FetchFn)
    (checkReadBack : option bool) (w w1 : W) (t : list event)
    (res : Response) (raw : string) :
  run handler (effective_fetch fetch url options) w = (w1, t, Ok res) ->
  res_text res = Malformed raw ->
  run handler (fetcher deserialize url options fetch checkReadBack) w
  = (w1,
     if ok res
     then t ++ [EConsole (ErrorUnableToDeserialize (Malformed raw))]
     else t,
     Thrown (SyntaxError raw)).
Proof.
  intros Hfetch Hraw. unfold fetcher.
  rewrite run_bind, Hfetch. simpl. rewrite Hraw.
  destruct (ok res); simpl; [reflexivity|].
  rewrite app_nil_r. reflexivity.
Qed.

Lemma fetcher_default_calls
    (url : string) (options : option RequestInit)
    (checkReadBack : option bool) (w : W) :
  calls (trace_of
           (run handler (fetcher deserialize url options None checkReadBack) w))
  = [CFetch url options].
Proof.
  unfold fetcher, effective_fetch, crossFetch_fetch, trigger. simpl.
  destruct (handler (CFetch url options) w) as [w1 [res|e]]; [|reflexivity].
  destruct (negb (ok res)).
  - destruct (unmarshal deserialize (res_text res)) as [errData|e];
      [|reflexivity].
    simpl. destruct (read_back_denied checkReadBack errData) as [[|]|e];
      simpl; try reflexivity.
    destruct (get_prop errData "error"); reflexivity.
  - destruct (obind _ _); reflexivity.
Qed.

(** X5.  With the default [fetch], [fetcher] calls the network exactly
    once, with the URL and the options it was given, and calls nothing
    else, however the request ends. *)
Theorem fetcher_calls_network_once
    (url : string) (options : option RequestInit)
    (checkReadBack : option bool) (w : W) :
  calls (trace_of
           (run handler (fetcher deserialize url options None checkReadBack) w))
  = [CFetch url options].
Proof. apply fetcher_default_calls. Qed.

End FetcherFurther.

(** ** unmarshal, marshal and makeUrl *)

Lemma string_app_assoc (a b c : string) :
  ((a ++ b) ++ c)%string = (a ++ (b ++ c))%string.
Proof. induction a as [|x a IH]; simpl; [reflexivity|now rewrite IH]. Qed.

Lemma json_plain_obj (fields : list (string * value)) :
  json_plain (VObj fields)
  = distinct (map fst fields) && forallb (fun kv => json_plain (snd kv)) fields.
Proof.
  cbn [json_plain]. f_equal.
  induction fields as [|[k v] rest IH]; [reflexivity|].
  cbn [forallb snd]. now rewrite IH.
Qed.

Lemma existsb_obj_set_other (k k' : string) (v : value)
    (fields : list (string * value)) :
  k <> k' ->
  existsb (String.eqb k') (map fst (obj_set k v fields))
  = existsb (String.eqb k') (map fst fields).
Proof.
  intros Hne. induction fields as [|[k0 v0] rest IH]; cbn [obj_set map fst existsb].
  - destruct (String.eqb_spec k' k); [congruence|reflexivity].
  - destruct (String.eqb k k0); cbn [map fst existsb]; [reflexivity|].
    now rewrite IH.
Qed.

Lemma json_plain_obj_set (k : string) (v : value)
    (fields : list (string * value)) :
  json_plain (VObj fields) = true ->
  json_plain v = true ->
  json_plain (VObj (obj_set k v fields)) = true.
Proof.
  rewrite !json_plain_obj. intros Hf Hv.
  apply andb_prop in Hf as [Hd Hall].
  induction fields as [|[k0 v0] rest IH]; cbn [obj_set].
  - cbn. now rewrite Hv.
  - cbn [map fst distinct forallb snd] in Hd, Hall.
    apply andb_prop in Hd as [Hk0 Hd]. apply andb_prop in Hall as [Hv0 Hall].
    destruct (String.eqb_spec k k0) as [->|Hk];
      cbn [map fst distinct forallb snd].
    + now rewrite Hk0, Hd, Hv, Hall.
    + rewrite existsb_obj_set_other by assumption. rewrite Hk0, Hv0.
      exact (IH Hd Hall).
Qed.

Section WireFurther.

Variable serialize : value -> value * value.
Variable deserialize : value -> value -> outcome value.
Variable encodeURIComponent : option text -> string.

(** X6.  Whatever [unmarshal] returns, it differs from the parsed text at
    most in the [data] member: every other member reads the same. *)
Theorem unmarshal_changes_only_data (t : text) (parsed result : value)
    (k : string) :
  JSON_parse t = Ok parsed ->
  unmarshal deserialize t = Ok result ->
  k <> "data" ->
  get_prop result k = get_prop parsed k.
Proof.
  intros Hparse Hun Hk. unfold unmarshal in Hun. rewrite Hparse in Hun.
  cbn [obind] in Hun. unfold unmarshal_parsed in Hun.
  destruct (get_prop parsed "data") as [data|e] eqn:Hdata; [|discriminate].
  cbn [obind] in Hun.
  destruct (truthy data) eqn:Ht.
  - destruct parsed as [| | | | | | |fields]; cbn [get_prop] in Hdata;
      try (injection Hdata as <-; discriminate); try discriminate.
    destruct (obind (get_prop (VObj fields) "meta") _) as [cond|e];
      [|discriminate].
    cbn [obind] in Hun. destruct (truthy cond).
    + destruct (get_prop (VObj fields) "meta") as [meta|e]; [|discriminate].
      cbn [obind] in Hun.
      destruct (get_prop meta "serialization") as [ser|e]; [|discriminate].
      cbn [obind] in Hun.
      destruct (deserialize data ser) as [revived|e]; [|discriminate].
      cbn [obind own_props] in Hun. injection Hun as <-.
      cbn [get_prop]. rewrite obj_get_obj_set_other by congruence.
      reflexivity.
    + now injection Hun as <-.
  - cbn [obind] in Hun. rewrite Ht in Hun. now injection Hun as <-.
Qed.

(** X7.  When [serialize] yields an object and metadata, the text that
    [marshal] produces parses to the members of that object with the
    member [meta] set to [{ serialization: metadata }]: the other members
    are kept, a member of the payload that is itself named [meta] is
    replaced. *)
Theorem marshal_with_metadata (x : value) (fields : list (string * value))
    (meta : value) :
  serialize x = (VObj fields, meta) ->
  truthy meta = true ->
  json_plain (VObj fields) = true ->
  json_plain meta = true ->
  exists (t : text) (sent : list (string * value)),
    marshal serialize x = Some t
    /\ JSON_parse t = Ok (VObj sent)
    /\ obj_get "meta" sent = Some (VObj [("serialization", meta)])
    /\ forall k, k <> "meta" -> obj_get k sent = obj_get k fields.
Proof.
  intros Hs Ht Hpf Hpm.
  exists (Doc (to_json (VObj (obj_set "meta" (VObj [("serialization", meta)])
                               fields)))),
         (obj_set "meta" (VObj [("serialization", meta)]) fields).
  split; [|split; [|split]].
  - unfold marshal. rewrite Hs, Ht. reflexivity.
  - cbn [JSON_parse]. f_equal. apply of_json_to_json.
    apply json_plain_obj_set; [assumption|].
    rewrite json_plain_obj. cbn. now rewrite Hpm.
  - apply obj_get_obj_set_same.
  - intros k Hk. apply obj_get_obj_set_other. congruence.
Qed.

(** X8.  [makeUrl] only ever appends to the URL: the result is the URL
    followed by a suffix, and the suffix is empty exactly when the
    arguments are falsy. *)
Theorem makeUrl_appends (url : string) (args : value) :
  exists suffix : string,
    makeUrl serialize encodeURIComponent url args = (url ++ suffix)%string
    /\ (suffix = "" <-> truthy args = false).
Proof.
  unfold makeUrl. destruct (truthy args); simpl.
  - destruct (serialize args) as [data meta]. destruct (truthy meta).
    + eexists. rewrite string_app_assoc. split; [reflexivity|].
      split; discriminate.
    + eexists. split; [reflexivity|]. split; discriminate.
  - exists "". split.
    + clear. induction url as [|c r IH]; simpl; [reflexivity|now rewrite <- IH].
    + split; reflexivity.
Qed.

End WireFurther.

(** ** The invalidation predicate, in full *)

Section PredicateFurther.

Variable ModelMeta : Type.
Variable getMutatedModels : string -> string -> value -> ModelMeta -> list string.
Variable getReadModels : value -> ModelMeta -> value -> list string.

Local Abbreviation predicate :=
  (getInvalidationPredicate getMutatedModels getReadModels).

Lemma findNestedRead_spec (visitingModel : value) (targetModels : list string)
    (modelMeta : ModelMeta) (args : value) :
  findNestedRead getReadModels visitingModel targetModels modelMeta args = true
  <-> exists m, In m targetModels
                /\ In m (getReadModels visitingModel modelMeta args).
Proof.
  unfold findNestedRead. rewrite existsb_exists.
  split; intros (m & Hin & H); exists m; (split; [assumption|]);
    now apply includes_In.
Qed.



(** X11.  With logging on, the predicate writes one line, naming the key
    and the mutation, exactly when it invalidates. *)
Theorem predicate_logs_when_invalidating
    (model operation : string) (mutationArgs : value) (modelMeta : ModelMeta)
    (queryKey : list value) :
  fst (predicate model operation mutationArgs modelMeta true queryKey)
  = if snd (predicate model operation mutationArgs modelMeta true queryKey)
    then [LogInvalidating (JSON_stringify (VArr queryKey)) model operation]
    else [].
Proof.
  unfold getInvalidationPredicate.
  destruct (includes _ _); [reflexivity|].
  destruct (truthy _); [|reflexivity].
  destruct (findNestedRead _ _ _ _ _); reflexivity.
Qed.

(** X12.  A query key whose model position holds no string and whose
    argument position is falsy, such as a key of fewer than two elements,
    is never invalidated. *)
Theorem foreign_key_not_invalidated
    (model operation : string) (mutationArgs : value) (modelMeta : ModelMeta)
    (logging : bool) (queryKey : list value) :
  (forall m, element 1 queryKey <> VStr m) ->
  truthy (element 3 queryKey) = false ->
  snd (predicate model operation mutationArgs modelMeta logging queryKey) = false.
Proof.
  intros Hmodel Hargs. unfold getInvalidationPredicate. rewrite Hargs.
  destruct (includes _ (element 1 queryKey)) eqn:Hdirect; [|reflexivity].
  unfold includes in Hdirect. apply existsb_exists in Hdirect as (x & _ & Hx).
  destruct (element 1 queryKey) as [| | | |m| | |]; try discriminate.
  now destruct (Hmodel m).
Qed.

End PredicateFurther.

(** X13.  Invalidation grows with the mutated-model set: if a resolver
    reports every model that another one reports, its predicate
    invalidates every query the other one invalidates. *)
Theorem predicate_monotone (ModelMeta : Type)
    (resolver1 resolver2 : string -> string -> value -> ModelMeta -> list string)
    (getReadModels : value -> ModelMeta -> value -> list string)
    (model operation : string) (mutationArgs : value) (modelMeta : ModelMeta)
    (logging : bool) (queryKey : list value) :
  incl (resolver1 model operation mutationArgs modelMeta)
       (resolver2 model operation mutationArgs modelMeta) ->
  snd (getInvalidationPredicate resolver1 getReadModels model operation
         mutationArgs modelMeta logging queryKey) = true ->
  snd (getInvalidationPredicate resolver2 getReadModels model operation
         mutationArgs modelMeta logging queryKey) = true.
Proof.
  intros Hincl. unfold getInvalidationPredicate.
  set (m1 := resolver1 model operation mutationArgs modelMeta) in *.
  set (m2 := resolver2 model operation mutationArgs modelMeta) in *.
  assert (Hdirect : includes m1 (element 1 queryKey) = true ->
                    includes m2 (element 1 queryKey) = true).
  { unfold includes. rewrite !existsb_exists.
    intros (x & Hin & Hx). exists x. split; [now apply Hincl|assumption]. }
  destruct (includes m1 (element 1 queryKey)).
  - rewrite Hdirect by reflexivity. destruct logging; reflexivity.
  - destruct (includes m2 (element 1 queryKey)); [reflexivity|].
    destruct (truthy (element 3 queryKey)); [|discriminate].
    destruct (findNestedRead getReadModels _ m1 _ _) eqn:H1; [|discriminate].
    intros _. apply findNestedRead_spec in H1 as (m & Hin & Hread).
    assert (H2 : findNestedRead getReadModels (element 1 queryKey) m2 modelMeta
                   (element 3 queryKey) = true).
    { apply findNestedRead_spec. exists m. split; [now apply Hincl|assumption]. }
    rewrite H2. reflexivity.
Qed.

(** ** The optimistic-update scan, entry by entry *)

Section ScanFurther.

Variable W : Type.
Variable handler : forall c : call, W -> W * outcome (resp c).
Variable ModelMeta : Type.


Lemma same_effects_into (mutationModel mutationOp : string)
    (mutationArgs : value) (modelMeta : ModelMeta) (setCache : SetCacheFunc)
    (logging : bool) (before rest rest' : QueryCache) :
  same_effects handler
    (optimisticUpdate mutationModel mutationOp mutationArgs modelMeta
       rest setCache logging)
    (optimisticUpdate mutationModel mutationOp mutationArgs modelMeta
       rest' setCache logging) ->
  same_effects handler
    (optimisticUpdate mutationModel mutationOp mutationArgs modelMeta
       (before ++ rest) setCache logging)
    (optimisticUpdate mutationModel mutationOp mutationArgs modelMeta
       (before ++ rest') setCache logging).
Proof.
  intros H. induction before as [|x before IH]; [exact H|].
  apply scan_cons, IH.
Qed.


(** X15.  A cache entry without error whose key has no flags object in
    fifth position ([undefined], as in a key of four elements or fewer, or
    [null]) makes the scan throw a [TypeError] there: nothing is merged or
    written for it, and the entries after it are not visited. *)
Theorem scan_throws_on_key_without_flags
    (mutationModel mutationOp : string) (mutationArgs : value)
    (modelMeta : ModelMeta) (setCache : SetCacheFunc) (logging : bool)
    (before after : QueryCache) (item : CacheItem) (w : W) :
  truthy (state_error item) = false ->
  element 4 (queryKey item) = VUndefined \/ element 4 (queryKey item) = VNull ->
  effects (run handler
             (optimisticUpdate mutationModel mutationOp mutationArgs modelMeta
                (item :: after) setCache logging) w)
  = (w, [], Thrown (TypeError "Cannot read properties of undefined or null"))
  /\ effects (run handler
               (optimisticUpdate mutationModel mutationOp mutationArgs
                  modelMeta (before ++ item :: after) setCache logging) w)
     = effects (run handler
                  (optimisticUpdate mutationModel mutationOp mutationArgs
                     modelMeta (before ++ [item]) setCache logging) w).
Proof.
  intros Herr Hflags.
  assert (Hthrow : forall rest,
    optimisticUpdate mutationModel mutationOp mutationArgs modelMeta
      (item :: rest) setCache logging
    = Throw (TypeError "Cannot read properties of undefined or null")).
  { intros rest. rewrite optimisticUpdate_cons. cbv zeta. rewrite Herr.
    destruct Hflags as [-> | ->]; reflexivity. }
  split.
  - rewrite Hthrow. reflexivity.
  - apply same_effects_into. rewrite !Hthrow. apply same_effects_refl.
Qed.


End ScanFurther.

(** ** The scan over a whole cache *)

Lemma console_lines_app (t1 t2 : list event) :
  console_lines (t1 ++ t2) = console_lines t1 ++ console_lines t2.
Proof.
  induction t1 as [|[c|m] t1 IH]; simpl; [reflexivity|assumption|].
  now rewrite IH.
Qed.


Section ScanWhole.

Variable W : Type.
Variable handler : forall c : call, W -> W * outcome (resp c).
Variable ModelMeta : Type.

(** X17.  With logging off the scan writes nothing to the console, as
    long as [setCache] itself writes nothing. *)
Theorem scan_quiet_without_logging
    (mutationModel mutationOp : string) (mutationArgs : value)
    (modelMeta : ModelMeta) (setCache : SetCacheFunc) (queryCache : QueryCache)
    (w : W) :
  (forall k d w', console_lines (trace_of (run handler (setCache k d) w')) = []) ->
  console_lines
    (trace_of
       (run handler
          (optimisticUpdate mutationModel mutationOp mutationArgs modelMeta
             queryCache setCache false) w))
  = [].
Proof.
  intros Hset. revert w.
  induction queryCache as [|item rest IH]; intros w; [reflexivity|].
  rewrite optimisticUpdate_cons. cbv zeta.
  destruct (truthy (state_error item)); [apply IH|].
  destruct (get_prop (element 4 (queryKey item)) "optimisticUpdate")
    as [flag|e]; [|reflexivity].
  cbn [lift bind]. destruct (negb (truthy flag)); [apply IH|].
  cbn [run]. destruct (handler _ w) as [w1 [mutatedData|e]]; [|reflexivity].
  destruct (negb (is_undefined mutatedData)).
  - rewrite run_bind. specialize (Hset (queryKey item) mutatedData w1).
    destruct (run handler (setCache (queryKey item) mutatedData) w1)
      as [[w2 t2] [[]|e]]; unfold trace_of in *; cbn in Hset |- *.
    + specialize (IH w2).
      destruct (run handler (optimisticUpdate _ _ _ _ rest _ _) w2)
        as [[w3 t3] o3]. cbn in IH |- *.
      now rewrite console_lines_app, Hset, IH.
    + exact Hset.
  - specialize (IH w1).
    destruct (run handler (optimisticUpdate _ _ _ _ rest _ _) w1)
      as [[w3 t3] o3]. exact IH.
Qed.



End ScanWhole.

(** ** useModelMutation *)

Lemma pop_split_trailing (url : string) :
  ends_with "/" url = true \/ url = "" -> pop (split "/" url) = Some "".
Proof.
  intros H.
  destruct (pop_split_suffix "/" url) as (pre & op & Hpop & Hu & Hfree & _ & _).
  rewrite Hpop. f_equal.
  destruct (String.eqb_spec op "") as [->|Hop]; [reflexivity|].
  exfalso. destruct H as [Hend| ->].
  - rewrite Hu, (ends_with_app_free "/" pre Hfree Hop) in Hend. discriminate.
  - destruct pre; [|discriminate]. simpl in Hu. congruence.
Qed.

Lemma silent_execute (o : MutationOptions) (variables : value) :
  silent_hook (onMutate o) -> silent_hook (onSuccess o) ->
  silent_hook (onSettled o) ->
  (forall f v, mutationFn o = Some f -> silent (f v)) ->
  silent (execute o variables).
Proof.
  intros HM HS HT HF. unfold execute.
  apply silent_bind; [now apply silent_call_opt|]. intros context.
  apply silent_bind.
  { destruct (mutationFn o) as [f|] eqn:E; [now apply HF|constructor]. }
  intros data. apply silent_bind; [now apply silent_call_opt|]. intros _.
  apply silent_bind; [now apply silent_call_opt|]. intros _. constructor.
Qed.

Lemma silent_supplied_hook (present : bool) (ph : phase) :
  silent_hook (supplied_hook present ph).
Proof.
  destruct present; simpl; [|exact I].
  intros args. constructor; [reflexivity|]. intros r. constructor.
Qed.

Section MutationFurther.

Variable W : Type.
Variable handler : forall c : call, W -> W * outcome (resp c).
Variable ModelMeta : Type.
Variable getMutatedModels : string -> string -> value -> ModelMeta -> list string.
Variable getReadModels : value -> ModelMeta -> value -> list string.
Variable serialize : value -> value * value.
Variable deserialize : value -> value -> outcome value.
Variable encodeURIComponent : option text -> string.

Local Abbreviation mutation_options :=
  (useModelMutation getMutatedModels getReadModels serialize deserialize
     encodeURIComponent).

Local Abbreviation predicate_for :=
  (getInvalidationPredicate getMutatedModels getReadModels).

(** X20.  When the URL is empty or ends with "/", no operation name is
    found and nothing is set up, even with invalidation and optimistic
    update requested: the three callbacks are those of the caller,
    unchanged. *)
Theorem no_setup_without_operation
    (logging : option bool) (cached : QueryCache) (model : string)
    (method : http_method) (url : string) (modelMeta : ModelMeta)
    (options : option MutationOptions) (fetch : option FetchFn)
    (invalidateQueries_ checkReadBack optimisticUpdate_ : option bool) :
  ends_with "/" url = true \/ url = "" ->
  let caller := match options with Some o => o | None => no_options end in
  let final := mutation_options logging cached model method url modelMeta
                 options fetch invalidateQueries_ checkReadBack
                 optimisticUpdate_ in
  onMutate final = onMutate caller
  /\ onSuccess final = onSuccess caller
  /\ onSettled final = onSettled caller.
Proof.
  intros Hurl. unfold useModelMutation.
  rewrite (pop_split_trailing Hurl). cbn. auto.
Qed.

Lemma mutationFn_default_calls
    (logging : option bool) (cached : QueryCache) (model : string)
    (method : http_method) (url : string) (modelMeta : ModelMeta)
    (options : option MutationOptions)
    (invalidateQueries_ checkReadBack optimisticUpdate_ : option bool) :
  exists f : value -> prog value,
    mutationFn (mutation_options logging cached model method url modelMeta
                  options None invalidateQueries_ checkReadBack
                  optimisticUpdate_) = Some f
    /\ forall (data : value) (w : W),
         calls (trace_of (run handler (f data) w))
         = [ match method with
             | DELETE =>
                 CFetch (makeUrl serialize encodeURIComponent url data)
                   (Some (mkRequestInit "DELETE" [] None))
             | _ =>
                 CFetch url
                   (Some (mkRequestInit (method_name method)
                            [("content-type", "application/json")]
                            (Some (marshal serialize data))))
             end ].
Proof.
  eexists. split.
  - unfold useModelMutation.
    destruct (pop (split "/" url)) as [operation|]; [|reflexivity].
    destruct (truthy (VStr operation)); [|reflexivity].
    destruct (or_default true invalidateQueries_),
             (or_default false optimisticUpdate_); reflexivity.
  - intros data w. cbv beta. rewrite fetcher_default_calls.
    destruct method; reflexivity.
Qed.

(** X21.  The mutation function sends one request through the default
    [fetch] and calls nothing else.  A DELETE goes to the URL extended
    with the data by [makeUrl] and carries neither headers nor body; a
    POST or PUT goes to the URL as given, with a JSON content type and the
    marshalled data as body. *)
Theorem mutationFn_request
    (logging : option bool) (cached : QueryCache) (model : string)
    (method : http_method) (url : string) (modelMeta : ModelMeta)
    (options : option MutationOptions)
    (invalidateQueries_ checkReadBack optimisticUpdate_ : option bool) :
  exists f : value -> prog value,
    mutationFn (mutation_options logging cached model method url modelMeta
                  options None invalidateQueries_ checkReadBack
                  optimisticUpdate_) = Some f
    /\ forall (data : value) (w : W),
         calls (trace_of (run handler (f data) w))
         = [ match method with
             | DELETE =>
                 CFetch (makeUrl serialize encodeURIComponent url data)
                   (Some (mkRequestInit "DELETE" [] None))
             | _ =>
                 CFetch url
                   (Some (mkRequestInit (method_name method)
                            [("content-type", "application/json")]
                            (Some (marshal serialize data))))
             end ].
Proof. apply mutationFn_default_calls. Qed.

(** X22.  With invalidation switched off, nothing that
    [useModelMutation] puts in the options asks the query client to
    invalidate: none of the three callbacks, on whatever arguments and in
    whatever state it is called, and not the mutation function, whether
    optimistic update is on or not, as long as the callbacks and the
    [fetch] function of the caller do not do so themselves. *)
Theorem no_invalidation_when_disabled
    (logging : option bool) (cached : QueryCache) (model : string)
    (method : http_method) (url : string) (modelMeta : ModelMeta)
    (options : option MutationOptions) (fetch : option FetchFn)
    (checkReadBack optimisticUpdate_ : option bool) :
  silent_options options ->
  (forall u o, silent (effective_fetch fetch u o)) ->
  (forall (ph : phase) (args : list value) (w : W),
     invalidations
       (trace_of
          (run handler
             (call_opt
                (hook_of ph
                   (mutation_options logging cached model method url
                      modelMeta options fetch (Some false) checkReadBack
                      optimisticUpdate_))
                args) w))
     = [])
  /\ (forall (f : value -> prog value) (data : value) (w : W),
        mutationFn
          (mutation_options logging cached model method url modelMeta options
             fetch (Some false) checkReadBack optimisticUpdate_)
        = Some f ->
        invalidations (trace_of (run handler (f data) w)) = []).
Proof.
  intros Hopts Hfetch.
  assert (Hcaller :
    silent_hook (onMutate (match options with Some o => o | None => no_options end))
    /\ silent_hook (onSuccess (match options with Some o => o | None => no_options end))
    /\ silent_hook (onSettled (match options with Some o => o | None => no_options end))).
  { destruct options as [o|]; simpl in *; auto. }
  destruct Hcaller as (HcM & HcS & HcT).
  split.
  - intros ph args w. apply silent_run, silent_call_opt.
    unfold useModelMutation. cbn [or_default].
    destruct (pop (split "/" url)) as [operation|];
      [|destruct ph; assumption].
    destruct (truthy (VStr operation)); [|destruct ph; assumption].
    destruct (or_default false optimisticUpdate_); [|destruct ph; assumption].
    destruct ph; cbn; try assumption; intros args'.
    + apply silent_bind.
      * apply silent_optimisticUpdate, silent_setQueryData_and_cancel.
      * intros _. now apply silent_call_opt.
    + now apply silent_call_opt.
  - intros f data w Hf.
    destruct (useModelMutation_mutationFn getMutatedModels getReadModels
                serialize deserialize encodeURIComponent logging cached model
                method url modelMeta options fetch (Some false) checkReadBack
                optimisticUpdate_) as (request & Hfn).
    rewrite Hfn in Hf. injection Hf as <-.
    apply silent_run, silent_fetcher, Hfetch.
Qed.

Lemma supplied_hook_calls (present : bool) (ph : phase) (args : list value)
    (w w1 : W) (t : list event) (r : value) :
  run handler (call_opt (supplied_hook present ph) args) w = (w1, t, Ok r) ->
  calls t = hook_calls present ph args.
Proof.
  destruct present; simpl.
  - destruct (handler (CCallerHook ph args) w) as [wa [ra|e]]; [|discriminate].
    intros H. injection H as _ <- _. reflexivity.
  - intros H. injection H as _ <- _. reflexivity.
Qed.

Lemma useModelMutation_invalidate_only
    (logging : option bool) (cached : QueryCache) (model : string)
    (method : http_method) (url operation : string) (modelMeta : ModelMeta)
    (options : option MutationOptions) (fetch : option FetchFn)
    (invalidateQueries_ checkReadBack optimisticUpdate_ : option bool) :
  pop (split "/" url) = Some operation ->
  operation <> "" ->
  or_default true invalidateQueries_ = true ->
  or_default false optimisticUpdate_ = false ->
  let caller := match options with Some o => o | None => no_options end in
  mutation_options logging cached model method url modelMeta options fetch
    invalidateQueries_ checkReadBack optimisticUpdate_
  = mkMutationOptions
      (mutationFn
         (mutation_options logging cached model method url modelMeta options
            fetch invalidateQueries_ checkReadBack optimisticUpdate_))
      (onMutate caller)
      (Some (fun args =>
         invalidateQueries
           (predicate_for model operation (element 1 args) modelMeta
              (or_default false logging)) ;;;
         call_opt (onSuccess caller) args))
      (onSettled caller).
Proof.
  intros Hop Hne Hinv Hopt.
  assert (Htruthy : truthy (VStr operation) = true).
  { simpl. destruct (String.eqb_spec operation ""); [contradiction|reflexivity]. }
  unfold useModelMutation. rewrite Hop, Htruthy, Hinv, Hopt. reflexivity.
Qed.

(** X23.  With invalidation on, optimistic update off (the defaults) and
    a URL whose last segment, the operation name, is not empty, a
    mutation that succeeds makes these calls, in this order: the
    [onMutate] callback of the caller if any, the network request, one
    invalidation with the predicate of the mutation, then the [onSuccess]
    and [onSettled] callbacks of the caller if any.  The cache is neither
    merged nor written. *)
Theorem default_mutation_order
    (logging : option bool) (cached : QueryCache) (model : string)
    (method : http_method) (url operation : string) (modelMeta : ModelMeta)
    (mutate success settled : bool)
    (invalidateQueries_ checkReadBack optimisticUpdate_ : option bool)
    (variables result : value) (w w' : W) (t : list event) :
  pop (split "/" url) = Some operation ->
  operation <> "" ->
  or_default true invalidateQueries_ = true ->
  or_default false optimisticUpdate_ = false ->
  run handler
    (execute (mutation_options logging cached model method url modelMeta
                (Some (supplied_options mutate success settled)) None
                invalidateQueries_ checkReadBack optimisticUpdate_)
       variables) w
  = (w', t, Ok result) ->
  exists context : value,
    calls t
    = hook_calls mutate OnMutate [variables]
      ++ [ match method with
           | DELETE =>
               CFetch (makeUrl serialize encodeURIComponent url variables)
                 (Some (mkRequestInit "DELETE" [] None))
           | _ =>
               CFetch url
                 (Some (mkRequestInit (method_name method)
                          [("content-type", "application/json")]
                          (Some (marshal serialize variables))))
           end;
           CInvalidateQueries
             (predicate_for model operation variables modelMeta
                (or_default false logging)) ]
      ++ hook_calls success OnSuccess [result; variables; context]
      ++ hook_calls settled OnSettled [result; VNull; variables; context].
Proof.
  intros Hop Hne Hinv Hopt Hrun.
  destruct (mutationFn_default_calls logging cached model method url modelMeta
              (Some (supplied_options mutate success settled))
              invalidateQueries_ checkReadBack optimisticUpdate_)
    as (f & Hf & Hcalls).
  rewrite (@useModelMutation_invalidate_only logging cached model method url
             operation modelMeta
             (Some (supplied_options mutate success settled)) None
             invalidateQueries_ checkReadBack optimisticUpdate_
             Hop Hne Hinv Hopt) in Hrun.
  apply execute_Ok in Hrun
    as (w1 & w2 & w3 & t1 & t2 & t3 & t4 & context & r3 & r4
        & Hmut & Hfn & Hsucc & Hsett & ->).
  cbn [onMutate onSuccess onSettled mutationFn supplied_options] in *.
  rewrite Hf in Hfn.
  exists context. rewrite !calls_app.
  rewrite (supplied_hook_calls _ _ _ _ Hmut).
  rewrite (supplied_hook_calls _ _ _ _ Hsett).
  specialize (Hcalls variables w1). rewrite Hfn in Hcalls.
  unfold trace_of in Hcalls. cbn [fst snd] in Hcalls. rewrite Hcalls.
  assert (H3 : calls t3
               = CInvalidateQueries
                   (predicate_for model operation variables modelMeta
                      (or_default false logging))
                 :: hook_calls success OnSuccess [result; variables; context]).
  { unfold invalidateQueries, trigger in Hsucc.
    cbn [call_opt bind run element nth] in Hsucc.
    match type of Hsucc with
    | context [handler ?c w2] => destruct (handler c w2) as [wa [ra|e]]
    end; [|discriminate].
    destruct (run handler
                (call_opt (supplied_hook success OnSuccess)
                   [result; variables; context]) wa)
      as [[wb tb] [rb|e]] eqn:E; [|discriminate].
    injection Hsucc as _ <- _. cbn [calls]. f_equal.
    exact (supplied_hook_calls _ _ _ _ E). }
  rewrite H3. reflexivity.
Qed.

End MutationFurther.

(** ** The query hooks *)

Section QueryHookProperties.

Variable W : Type.
Variable handler : forall c : call, W -> W * outcome (resp c).
Variable ModelMeta : Type.
Variable getMutatedModels : string -> string -> value -> ModelMeta -> list string.
Variable getReadModels : value -> ModelMeta -> value -> list string.
Variable serialize : value -> value * value.
Variable deserialize : value -> value -> outcome value.
Variable encodeURIComponent : option text -> string.

Local Abbreviation query_options :=
  (use_query_hook serialize deserialize encodeURIComponent).

(** The key and the query function that a hook builds. *)
Lemma query_hook_built (h : query_hook) (model url : string) (args : value)
    (options : option (value -> prog value)) (fetch : option FetchFn)
    (optimisticUpdate_ : option bool) (q : QueryOptions) :
  query_options h model url args options fetch optimisticUpdate_ = Ok q ->
  getQueryKey model url args (Some (is_infinite h))
    (if is_infinite h then None else Some (or_default false optimisticUpdate_))
  = Ok (query_key q)
  /\ queryFn q
     = spread_queryFn
         (fun pageParam =>
            fetcher deserialize
              (makeUrl serialize encodeURIComponent url
                 (if is_infinite h then nullish_or pageParam args else args))
              None fetch (Some false))
         options.
Proof.
  destruct h; cbn [use_query_hook is_infinite];
    unfold useModelQuery, useSuspenseModelQuery, useInfiniteModelQuery,
           useSuspenseInfiniteModelQuery;
    (destruct (getQueryKey _ _ _ _ _) as [key|e]; [|discriminate]);
    cbn [obind]; intros H; injection H as <-; split; reflexivity.
Qed.



(** X26.  A query never takes a denied read-back for an absent result:
    the query function built by the hooks switches read-back checking
    off, so every response outside 200-299 with a readable body rejects
    with the error carrying the payload and the status. *)
Theorem hook_query_rejects_not_ok
    (h : query_hook) (model url : string) (args : value)
    (fetch : option FetchFn) (optimisticUpdate_ : option bool)
    (q : QueryOptions) (pageParam : value) (w w1 : W) (t : list event)
    (res : Response) (errData e : value) :
  query_options h model url args None fetch optimisticUpdate_ = Ok q ->
  run handler
    (effective_fetch fetch
       (makeUrl serialize encodeURIComponent url
          (if is_infinite h then nullish_or pageParam args else args))
       None) w
  = (w1, t, Ok res) ->
  ok res = false ->
  unmarshal deserialize (res_text res) = Ok errData ->
  get_prop errData "error" = Ok e ->
  run handler (queryFn q pageParam) w
  = (w1, t,
     Thrown (FetchError "An error occurred while fetching the data." e
               (status res))).
Proof.
  intros Hq Hfetch Hok Hun He. apply query_hook_built in Hq as (_ & ->).
  cbn [spread_queryFn].
  rewrite (@fetcher_not_ok_run W handler deserialize _ None fetch (Some false)
             w w1 t res errData e Hfetch Hok Hun He).
  reflexivity.
Qed.

(** X27.  With the default [fetch], the query function built by a hook
    sends one request, without options, to the URL that [makeUrl] builds:
    from the arguments of the query, or, for an infinite query whose page
    parameter is neither [undefined] nor [null], from the page
    parameter. *)
Theorem hook_query_request
    (h : query_hook) (model url : string) (args : value)
    (optimisticUpdate_ : option bool) (q : QueryOptions) (pageParam : value)
    (w : W) :
  query_options h model url args None None optimisticUpdate_ = Ok q ->
  calls (trace_of (run handler (queryFn q pageParam) w))
  = [ CFetch
        (makeUrl serialize encodeURIComponent url
           (if is_infinite h then nullish_or pageParam args else args))
        None ].
Proof.
  intros Hq. apply query_hook_built in Hq as (_ & ->).
  cbn [spread_queryFn]. apply fetcher_default_calls.
Qed.

End QueryHookProperties.

(** ** The further properties on sample inputs *)

Lemma fetcher_not_ok_witness :
  run (answering server_error_response VUndefined)
    (fetcher date_deserialize "/api/model/post/create" None None None) tt
  = (tt, [ECall (CFetch "/api/model/post/create" None)],
     Thrown (FetchError "An error occurred while fetching the data."
               (VObj [("message", VStr "boom")]) 500)).
Proof.
  apply (@fetcher_not_ok unit (answering server_error_response VUndefined)
           date_deserialize "/api/model/post/create" None None None tt tt
           [ECall (CFetch "/api/model/post/create" None)]
           server_error_response
           (VObj [("error", VObj [("message", VStr "boom")])])
           (VObj [("message", VStr "boom")]));
    reflexivity.
Defined.

Lemma fetcher_ok_revives_data_witness :
  run (answering dated_response VUndefined)
    (fetcher date_deserialize "/api/model/post/findFirst" None None None) tt
  = (tt, [ECall (CFetch "/api/model/post/findFirst" None)],
     Ok (VObj [("createdAt", VDate "2024-01-01T00:00:00.000Z")])).
Proof.
  apply (@fetcher_ok_revives_data unit (answering dated_response VUndefined)
           date_deserialize "/api/model/post/findFirst" None None None tt tt
           [ECall (CFetch "/api/model/post/findFirst" None)] dated_response
           [ ("data", VObj [("createdAt", VStr "2024-01-01T00:00:00.000Z")]);
             ("meta",
              VObj [("serialization",
                     VObj [("values",
                            VObj [("createdAt", VArr [VStr "Date"])])])]) ]
           (VObj [("createdAt", VStr "2024-01-01T00:00:00.000Z")])
           (VObj [("serialization",
                   VObj [("values", VObj [("createdAt", VArr [VStr "Date"])])])])
           (VObj [("values", VObj [("createdAt", VArr [VStr "Date"])])]));
    reflexivity.
Defined.

Lemma fetcher_ok_plain_body_witness :
  run (answering created_response VUndefined)
    (fetcher date_deserialize "/api/model/post/create" None None (Some false))
    tt
  = (tt, [ECall (CFetch "/api/model/post/create" None)],
     Ok (VObj [("id", VNum 1)]))
  /\ run (answering (mkResponse 200 (Doc JNull)) VUndefined)
       (fetcher date_deserialize "/api/model/post/create" None None None) tt
     = (tt,
        [ ECall (CFetch "/api/model/post/create" None);
          EConsole (ErrorUnableToDeserialize (Doc JNull)) ],
        Thrown (TypeError "Cannot read properties of undefined or null")).
Proof.
  split.
  - apply (@fetcher_ok_plain_body unit (answering created_response VUndefined)
             date_deserialize "/api/model/post/create" None None (Some false)
             tt tt [ECall (CFetch "/api/model/post/create" None)]
             created_response (VObj [("data", VObj [("id", VNum 1)])]));
      reflexivity.
  - apply (@fetcher_ok_plain_body unit
             (answering (mkResponse 200 (Doc JNull)) VUndefined)
             date_deserialize "/api/model/post/create" None None None
             tt tt [ECall (CFetch "/api/model/post/create" None)]
             (mkResponse 200 (Doc JNull)) VNull);
      reflexivity.
Defined.

Lemma fetcher_malformed_body_witness :
  run (answering (html_response 502) VUndefined)
    (fetcher date_deserialize "/api/model/post/create" None None None) tt
  = (tt, [ECall (CFetch "/api/model/post/create" None)],
     Thrown (SyntaxError "<html>Bad Gateway</html>")).
Proof.
  apply (@fetcher_malformed_body unit (answering (html_response 502) VUndefined)
           date_deserialize "/api/model/post/create" None None None tt tt
           [ECall (CFetch "/api/model/post/create" None)] (html_response 502)
           "<html>Bad Gateway</html>");
    reflexivity.
Defined.

Lemma unmarshal_changes_only_data_witness :
  get_prop
    (VObj [ ("data", VObj [("createdAt", VDate "2024-01-01T00:00:00.000Z")]);
            ("meta",
             VObj [("serialization",
                    VObj [("values",
                           VObj [("createdAt", VArr [VStr "Date"])])])]) ])
    "meta"
  = get_prop
      (VObj [ ("data", VObj [("createdAt", VStr "2024-01-01T00:00:00.000Z")]);
              ("meta",
               VObj [("serialization",
                      VObj [("values",
                             VObj [("createdAt", VArr [VStr "Date"])])])]) ])
      "meta".
Proof.
  apply (@unmarshal_changes_only_data date_deserialize (res_text dated_response)).
  - reflexivity.
  - reflexivity.
  - discriminate.
Defined.

Lemma marshal_with_metadata_witness :
  exists (t : text) (sent : list (string * value)),
    marshal date_serialize dated_post = Some t
    /\ JSON_parse t = Ok (VObj sent)
    /\ obj_get "meta" sent
       = Some (VObj [("serialization",
                      VObj [("values",
                             VObj [("createdAt", VArr [VStr "Date"])])])])
    /\ forall k, k <> "meta" ->
         obj_get k sent
         = obj_get k [ ("meta", VStr "draft");
                       ("createdAt", VStr "2024-01-01T00:00:00.000Z") ].
Proof.
  apply (@marshal_with_metadata date_serialize dated_post); reflexivity.
Defined.


Lemma foreign_key_not_invalidated_witness :
  snd (getInvalidationPredicate schema_getMutatedModels schema_getReadModels
         "Post" "create" new_post blog false [VStr "todos"]) = false.
Proof.
  apply foreign_key_not_invalidated.
  - intros m. discriminate.
  - reflexivity.
Defined.

Lemma predicate_monotone_witness :
  snd (getInvalidationPredicate schema_getMutatedModels schema_getReadModels
         "Post" "create" new_post blog false posts_key) = true.
Proof.
  apply (@predicate_monotone Schema root_only schema_getMutatedModels
           schema_getReadModels "Post" "create" new_post blog false posts_key).
  - intros m [<-|[]]. simpl. left. reflexivity.
  - reflexivity.
Defined.


Lemma scan_throws_on_key_without_flags_witness :
  effects (run (answering created_response (VArr []))
             (optimisticUpdate "Post" "create" new_post blog
                (todos_entry :: [posts_entry]) setQueryData_and_cancel true) tt)
  = (tt, [], Thrown (TypeError "Cannot read properties of undefined or null"))
  /\ effects (run (answering created_response (VArr []))
               (optimisticUpdate "Post" "create" new_post blog
                  ([posts_entry] ++ todos_entry :: [posts_entry])
                  setQueryData_and_cancel true) tt)
     = effects (run (answering created_response (VArr []))
                  (optimisticUpdate "Post" "create" new_post blog
                     ([posts_entry] ++ [todos_entry])
                     setQueryData_and_cancel true) tt).
Proof.
  apply (@scan_throws_on_key_without_flags unit
           (answering created_response (VArr [])) Schema "Post" "create"
           new_post blog setQueryData_and_cancel true [posts_entry]
           [posts_entry] todos_entry tt).
  - reflexivity.
  - left. reflexivity.
Defined.


Lemma scan_quiet_without_logging_witness :
  console_lines
    (trace_of
       (run (answering created_response (VArr []))
          (optimisticUpdate "Post" "create" new_post blog
             [posts_entry; failed_users_entry; plain_posts_entry]
             setQueryData_and_cancel false) tt))
  = [].
Proof.
  apply scan_quiet_without_logging.
  intros k d w'. reflexivity.
Defined.




Lemma no_setup_without_operation_witness :
  onMutate
    (useModelMutation schema_getMutatedModels schema_getReadModels
       date_serialize date_deserialize uri_stub None [posts_entry] "Post" POST
       "/api/model/post/" blog (Some caller_options) None (Some true) None
       (Some true))
  = onMutate caller_options
  /\ onSuccess
       (useModelMutation schema_getMutatedModels schema_getReadModels
          date_serialize date_deserialize uri_stub None [posts_entry] "Post"
          POST "/api/model/post/" blog (Some caller_options) None (Some true)
          None (Some true))
     = onSuccess caller_options
  /\ onSettled
       (useModelMutation schema_getMutatedModels schema_getReadModels
          date_serialize date_deserialize uri_stub None [posts_entry] "Post"
          POST "/api/model/post/" blog (Some caller_options) None (Some true)
          None (Some true))
     = onSettled caller_options.
Proof.
  apply (@no_setup_without_operation Schema schema_getMutatedModels
           schema_getReadModels date_serialize date_deserialize uri_stub None
           [posts_entry] "Post" POST "/api/model/post/" blog
           (Some caller_options) None (Some true) None (Some true)).
  left. reflexivity.
Defined.

Lemma default_mutation_order_witness :
  exists context : value,
    calls
      (trace_of
         (run (answering created_response (VArr []))
            (execute
               (useModelMutation schema_getMutatedModels schema_getReadModels
                  date_serialize date_deserialize uri_stub None [posts_entry]
                  "Post" POST "/api/model/post/create" blog
                  (Some (supplied_options true true true)) None None None None)
               new_post) tt))
    = hook_calls true OnMutate [new_post]
      ++ [ CFetch "/api/model/post/create"
             (Some (mkRequestInit "POST"
                      [("content-type", "application/json")]
                      (Some (marshal date_serialize new_post))));
           CInvalidateQueries
             (getInvalidationPredicate schema_getMutatedModels
                schema_getReadModels "Post" "create" new_post blog false) ]
      ++ hook_calls true OnSuccess [VObj [("id", VNum 1)]; new_post; context]
      ++ hook_calls true OnSettled
           [VObj [("id", VNum 1)]; VNull; new_post; context].
Proof.
  apply (@default_mutation_order unit (answering created_response (VArr []))
           Schema schema_getMutatedModels schema_getReadModels date_serialize
           date_deserialize uri_stub None [posts_entry] "Post" POST
           "/api/model/post/create" "create" blog true true true None None
           None new_post (VObj [("id", VNum 1)]) tt tt).
  - reflexivity.
  - discriminate.
  - reflexivity.
  - reflexivity.
  - reflexivity.
Defined.



Lemma hook_query_rejects_not_ok_witness :
  run (answering (denied_response 403) VUndefined)
    (fetcher date_deserialize "/api/model/post/findMany" None None (Some false))
    tt
  = (tt, [ECall (CFetch "/api/model/post/findMany" None)],
     Thrown (FetchError "An error occurred while fetching the data."
               (of_json denied_error) 403)).
Proof.
  apply (@hook_query_rejects_not_ok unit
           (answering (denied_response 403) VUndefined) date_serialize
           date_deserialize uri_stub UseModelQuery "Post"
           "/api/model/post/findMany" VUndefined None None
           (mkQueryOptions
              [ VStr "zenstack"; VStr "Post"; VStr "findMany"; VUndefined;
                flags false false ]
              (fun _ =>
                 fetcher date_deserialize "/api/model/post/findMany" None None
                   (Some false)))
           VUndefined tt tt
           [ECall (CFetch "/api/model/post/findMany" None)]
           (denied_response 403)
           (VObj [("error", of_json denied_error)]) (of_json denied_error));
    reflexivity.
Defined.

Lemma hook_query_request_witness :
  calls
    (trace_of
       (run (answering created_response VUndefined)
          (fetcher date_deserialize
             (makeUrl date_serialize uri_stub "/api/model/post/findMany"
                (VObj [("skip", VNum 10)]))
             None None (Some false)) tt))
  = [ CFetch
        (makeUrl date_serialize uri_stub "/api/model/post/findMany"
           (VObj [("skip", VNum 10)]))
        None ].
Proof.
  apply (@hook_query_request unit (answering created_response VUndefined)
           date_serialize date_deserialize uri_stub UseInfiniteModelQuery
           "Post" "/api/model/post/findMany" VUndefined None
           (mkQueryOptions
              [ VStr "zenstack"; VStr "Post"; VStr "findMany"; VUndefined;
                flags true false ]
              (fun pageParam =>
                 fetcher date_deserialize
                   (makeUrl date_serialize uri_stub "/api/model/post/findMany"
                      (nullish_or pageParam VUndefined))
                   None None (Some false)))
           (VObj [("skip", VNum 10)]) tt).
  reflexivity.
Defined.

Lemma no_invalidation_when_disabled_witness :
  invalidations
    (trace_of
       (run (answering created_response (VArr []))
          (call_opt
             (hook_of OnSettled
                (useModelMutation schema_getMutatedModels schema_getReadModels
                   date_serialize date_deserialize uri_stub None [posts_entry]
                   "Post" POST "/api/model/post/create" blog
                   (Some caller_options) None (Some false) None (Some true)))
             [VUndefined; VStr "failed"; new_post; VUndefined]) tt))
  = [].
Proof.
  apply (@no_invalidation_when_disabled unit
           (answering created_response (VArr [])) Schema
           schema_getMutatedModels schema_getReadModels date_serialize
           date_deserialize uri_stub None [posts_entry] "Post" POST
           "/api/model/post/create" blog (Some caller_options) None None
           (Some true)).
  - apply silent_supplied_options.
  - intros u o. apply silent_crossFetch.
Defined.
